(** * OpenFDA request layer: request client, URL builder, NDC normaliser

    Shallow embedding of
    - [bin/OpenFDAClient.js]: [DEFAULT_CONFIG], [isRetryableError] and
      [makeOpenFDARequest] (the specification's RequestClient.execute),
    - the class [OpenFDABuilder] (the specification's URLBuilder),
    - [normalizeNDC], the helper of the server entry point (the
      specification's NDCNormalizer.normalize),
    and the properties of the specification checked against them;
    further, of the tool handlers of the server entry point up to the
    request they issue, of [makeOpenFDARequest] of [bin/index.js], and of
    [scripts/add-shebang.cjs], with properties read off the code.

    Conventions of the embedding.
    - JavaScript numbers that the code uses as counters, delays and status
      codes are integers in the exactly representable range; they are [Z].
      A number parsed from a JSON body is a binary64 value ([PrimFloat]).
    - Strings are sequences of ASCII characters ([string]).
    - A JavaScript object used as a record of optional numeric fields
      (the request config) and the builder's [Map] are finite maps ([gmap]).
    - [null] / [undefined] is [None].
    - The network is an oracle: the outcome of the [attempt]-th call of
      [fetch].  The two suspension points of an attempt (the fetch and the
      back-off sleep) are recorded in a trace; console output is not. *)

From Stdlib Require Import ZArith Ascii String List Bool Lia PrimFloat.
From stdpp Require Import base option gmap strings list fin_maps pretty.

Local Open Scope string_scope.
Local Open Scope Z_scope.
Local Open Scope list_scope.

(** ** JavaScript values *)

Module Js.

(** A value produced by [response.json()]. *)
#[local] Unset Elimination Schemes.
Inductive JsonValue : Type :=
| JNull
| JBool (b : bool)
| JNumber (x : float)
| JString (s : string)
| JArray (items : list JsonValue)
| JObject (members : list (string * JsonValue)).
#[local] Set Elimination Schemes.

(** ToBoolean: [null], [false], [+0], [-0], [NaN] and the empty string
    are falsy, everything else (every array and object too) is truthy. *)
Definition truthy (v : JsonValue) : bool :=
  match v with
  | JNull => false
  | JBool b => b
  | JNumber x => negb (PrimFloat.is_zero x || PrimFloat.is_nan x)
  | JString s => negb (String.eqb s "")
  | JArray _ => true
  | JObject _ => true
  end.

(** An object reaching a [catch] clause, or passed to [isRetryableError]:
    only the properties the code reads.  [name] is absent on the object
    literal [{ status: response.status }]. *)
Record ErrorObject : Type := {
  name : option string;
  message : string;
  instanceofError : bool;
  instanceofTypeError : bool;
  status : option Z;
}.

(** [haystack.includes(needle)] *)
Fixpoint includes (haystack needle : string) : bool :=
  String.prefix needle haystack ||
  match haystack with
  | EmptyString => false
  | String _ rest => includes rest needle
  end.

(** Template-literal rendering of an integer. *)
Definition numberToString (n : Z) : string := pretty n.

End Js.

(** ** The network as seen by the client *)

Module Fetch.

(** What [response.json()] settles to. *)
Inductive JsonOutcome : Type :=
| JsonRejected (parseError : Js.ErrorObject)
| JsonParsed (parsedData : Js.JsonValue).

(** A completed response.  [text = None] stands for a rejected
    [response.text()]. *)
Record Response : Type := {
  status : Z;
  statusText : string;
  text : option string;
  json : JsonOutcome;
}.

(** [response.ok]: the status is in the range 200..299. *)
Definition ok (response : Response) : bool :=
  (200 <=? status response) && (status response <=? 299).

(** What [await fetch(url, { headers, signal })] settles to.  A fired
    time-out guard aborts the call, which then rejects with the
    [AbortError] below. *)
Inductive Outcome : Type :=
| Rejected (error : Js.ErrorObject)
| Resolved (response : Response).

Definition AbortError : Js.ErrorObject :=
  {| Js.name := Some "AbortError";
     Js.message := "This operation was aborted";
     Js.instanceofError := true;
     Js.instanceofTypeError := false;
     Js.status := None |}.

(** The rejection of a failed connection. *)
Definition fetchFailed : Js.ErrorObject :=
  {| Js.name := Some "TypeError";
     Js.message := "fetch failed";
     Js.instanceofError := true;
     Js.instanceofTypeError := true;
     Js.status := None |}.

(** The oracle: outcome of the fetch issued by attempt number [attempt]. *)
Definition Network : Type := nat -> Outcome.

End Fetch.

(** ** OpenFDAClient.js *)

Module Client.

Definition DEFAULT_CONFIG : gmap string Z :=
  {[ "maxRetries" := 3; "retryDelay" := 1000; "timeout" := 30000 ]}.

(** [{ ...DEFAULT_CONFIG, ...config }]: the properties of [config] win.
    A property that [config] has holds a number. *)
Definition spread (config : gmap string Z) : gmap string Z :=
  config ∪ DEFAULT_CONFIG.

(** The three constants bound by the destructuring
    [const { maxRetries, retryDelay, timeout } = ...]. *)
Record Settings : Type := {
  maxRetries : Z;
  retryDelay : Z;
  timeout : Z;
}.

Definition destructure (merged : gmap string Z) : Settings :=
  {| maxRetries := merged !!! "maxRetries";
     retryDelay := merged !!! "retryDelay";
     timeout := merged !!! "timeout" |}.

Definition settings (config : gmap string Z) : Settings :=
  destructure (spread config).

Inductive Details : Type :=
| DetailsText (s : string)
| DetailsObject (e : Js.ErrorObject).

Record ErrorRecord : Type := {
  type : string;
  message : string;
  status : option Z;
  details : option Details;
}.

Record RequestResult : Type := {
  data : option Js.JsonValue;
  error : option ErrorRecord;
}.

Definition nameIs (error : Js.ErrorObject) (n : string) : bool :=
  match Js.name error with
  | Some m => String.eqb m n
  | None => false
  end.

Definition statusSatisfies (error : Js.ErrorObject) (p : Z -> bool) : bool :=
  match Js.status error with
  | Some s => p s
  | None => false
  end.

Definition isRetryableError (error : Js.ErrorObject) : bool :=
  if nameIs error "TypeError" && Js.includes (Js.message error) "fetch"
  then true
  else if nameIs error "AbortError"
  then true
  else if statusSatisfies error (fun s => (500 <=? s) && (s <=? 599))
  then true
  else if statusSatisfies error (fun s => s =? 429)
  then true
  else false.

(** The object literal [{ status: response.status }]. *)
Definition statusOnly (s : Z) : Js.ErrorObject :=
  {| Js.name := None;
     Js.message := "";
     Js.instanceofError := false;
     Js.instanceofTypeError := false;
     Js.status := Some s |}.

Inductive Event : Type :=
| CallFetch (url : string) (attempt : nat)
| Sleep (ms : Z).

(** How one iteration of the [for] loop ends. *)
Inductive Completion : Type :=
| Return (parsedData : Js.JsonValue)
| Break
| Continue (delay : Z).

(** The message chosen by the [switch] on [response.status]. *)
Definition httpMessage (response : Fetch.Response) : string :=
  let s := Fetch.status response in
  if s =? 400 then "Bad Request: Invalid search query or parameters"
  else if s =? 401 then "Unauthorized: Invalid or missing API key"
  else if s =? 403 then "Forbidden: API key may be invalid or quota exceeded"
  else if s =? 404 then "Not Found: No results found for the specified query"
  else if s =? 429 then "Rate Limited: Too many requests. Retrying..."
  else if s =? 500 then "Server Error: OpenFDA service is experiencing issues"
  else "HTTP Error " +:+ Js.numberToString s +:+ ": " +:+ Fetch.statusText response.

Definition httpError (response : Fetch.Response) : ErrorRecord :=
  {| type := "http";
     message := httpMessage response;
     status := Some (Fetch.status response);
     details := Some (DetailsText
                        (default "Unable to read error response"
                                 (Fetch.text response))) |}.

Definition parsingError (parseError : Js.ErrorObject) : ErrorRecord :=
  {| type := "parsing";
     message := "Failed to parse JSON response: " +:+
                (if Js.instanceofError parseError
                 then Js.message parseError
                 else "Unknown parsing error");
     status := None;
     details := Some (DetailsObject parseError) |}.

Definition emptyError : ErrorRecord :=
  {| type := "empty_response";
     message := "Received empty response from OpenFDA API";
     status := None;
     details := None |}.

(** The error record built in the [catch] clause. *)
Definition networkError (cfg : Settings) (error : Js.ErrorObject) : ErrorRecord :=
  if nameIs error "AbortError" then
    {| type := "timeout";
       message := "Request timeout after " +:+ Js.numberToString (timeout cfg) +:+ "ms";
       status := None;
       details := Some (DetailsObject error) |}
  else if Js.instanceofTypeError error && Js.includes (Js.message error) "fetch" then
    {| type := "network";
       message := "Network error: Unable to connect to OpenFDA API";
       status := None;
       details := Some (DetailsText (Js.message error)) |}
  else
    {| type := "unknown";
       message := "Unexpected error: " +:+
                  (if String.eqb (Js.message error) ""
                   then "Unknown error occurred"
                   else Js.message error);
       status := None;
       details := Some (DetailsObject error) |}.

(** [retryDelay * Math.pow(2, attempt)] *)
Definition backoff (cfg : Settings) (attempt : nat) : Z :=
  retryDelay cfg * 2 ^ Z.of_nat attempt.

(** The body of the [for] loop for one value of [attempt]: the new value
    of [lastError] and the way the iteration ends. *)
Definition iteration (cfg : Settings) (net : Fetch.Network) (attempt : nat)
    (lastError : option ErrorRecord) : option ErrorRecord * Completion :=
  match net attempt with
  | Fetch.Resolved response =>
      if negb (Fetch.ok response) then
        let s := Fetch.status response in
        let lastError := Some (httpError response) in
        if (400 <=? s) && (s <? 500) && negb (s =? 429) then
          (lastError, Break)
        else if (Z.of_nat attempt <? maxRetries cfg) && isRetryableError (statusOnly s) then
          (lastError, Continue (backoff cfg attempt))
        else
          (lastError, Break)
      else
        match Fetch.json response with
        | Fetch.JsonRejected parseError => (Some (parsingError parseError), Break)
        | Fetch.JsonParsed parsedData =>
            if negb (Js.truthy parsedData) then (Some emptyError, Break)
            else (lastError, Return parsedData)
        end
  | Fetch.Rejected error =>
      let lastError := Some (networkError cfg error) in
      if (Z.of_nat attempt <? maxRetries cfg) && isRetryableError error then
        (lastError, Continue (backoff cfg attempt))
      else
        (lastError, Break)
  end.

(** [for (let attempt = 0; attempt <= maxRetries; attempt++) { ... }]
    followed by [return { data: null, error: lastError }].  [fuel] bounds
    the number of iterations; [None] means it ran out. *)
Fixpoint loop (cfg : Settings) (url : string) (net : Fetch.Network) (fuel : nat)
    (attempt : nat) (lastError : option ErrorRecord) (trace : list Event)
    : option (RequestResult * list Event) :=
  match fuel with
  | O => None
  | S fuel =>
      if Z.of_nat attempt <=? maxRetries cfg then
        let trace := trace ++ [CallFetch url attempt] in
        match iteration cfg net attempt lastError with
        | (_, Return parsedData) =>
            Some ({| data := Some parsedData; error := None |}, trace)
        | (lastError, Break) =>
            Some ({| data := None; error := lastError |}, trace)
        | (lastError, Continue delay) =>
            loop cfg url net fuel (S attempt) lastError (trace ++ [Sleep delay])
        end
      else
        Some ({| data := None; error := lastError |}, trace)
  end.

(** Iterations the loop can need: one per value of [attempt] in
    [0..maxRetries], and one more for the failing loop test. *)
Definition enoughFuel (cfg : Settings) : nat :=
  S (Z.to_nat (maxRetries cfg + 1)).

Definition makeOpenFDARequest (url : string) (config : gmap string Z)
    (net : Fetch.Network) : option (RequestResult * list Event) :=
  let cfg := settings config in
  loop cfg url net (enoughFuel cfg) 0 None [].

Definition isCallFetch (e : Event) : bool :=
  match e with
  | CallFetch _ _ => true
  | Sleep _ => false
  end.

(** Number of fetches issued in a trace. *)
Definition attempts (trace : list Event) : nat :=
  length (List.filter isCallFetch trace).

(** The delays slept, in order. *)
Definition sleeps (trace : list Event) : list Z :=
  omap (fun e => match e with Sleep ms => Some ms | CallFetch _ _ => None end) trace.

(** The six tags of the error taxonomy. *)
Definition errorTypes : list string :=
  ["http"; "network"; "timeout"; "parsing"; "empty_response"; "unknown"].

Definition classified (e : ErrorRecord) : Prop := In (type e) errorTypes.

(** A result in which exactly one of [data] and [error] is populated. *)
Definition populated (r : RequestResult) : Prop :=
  match data r, error r with
  | Some parsedData, None => Js.truthy parsedData = true
  | None, Some e => classified e
  | _, _ => False
  end.

(** Iterations left when the loop variable is [attempt]. *)
Definition remaining (cfg : Settings) (attempt : nat) : nat :=
  Z.to_nat (maxRetries cfg + 1 - Z.of_nat attempt).

(** The trace of a run in which the attempts [attempt], [attempt + 1], ...
    are each followed by a back-off sleep, [retries] times, before a last
    attempt. *)
Fixpoint backoffTrace (cfg : Settings) (url : string) (retries attempt : nat)
    : list Event :=
  match retries with
  | O => [CallFetch url attempt]
  | S retries =>
      CallFetch url attempt :: Sleep (backoff cfg attempt)
        :: backoffTrace cfg url retries (S attempt)
  end.

(** A completed response after which no further attempt can help:
    a status outside 200..299, 500..599 and 429, or a 2xx body that does
    not parse or parses to a falsy value. *)
Definition terminalResponse (response : Fetch.Response) : bool :=
  let s := Fetch.status response in
  if Fetch.ok response then
    match Fetch.json response with
    | Fetch.JsonRejected _ => true
    | Fetch.JsonParsed parsedData => negb (Js.truthy parsedData)
    end
  else negb (((500 <=? s) && (s <=? 599)) || (s =? 429)).

(** The error record left by a terminal response. *)
Definition terminalError (response : Fetch.Response) : ErrorRecord :=
  if Fetch.ok response then
    match Fetch.json response with
    | Fetch.JsonRejected parseError => parsingError parseError
    | Fetch.JsonParsed _ => emptyError
    end
  else httpError response.

(** The attempt numbers of the fetches in a trace. *)
Definition fetched (trace : list Event) : list nat :=
  omap (fun e => match e with CallFetch _ attempt => Some attempt | Sleep _ => None end) trace.

End Client.

(** ** OpenFDABuilder *)

Module Builder.

Inductive ContextType : Type := ndc | label | event.

(** The string a [ContextType] value is at run time. *)
Definition contextName (c : ContextType) : string :=
  match c with
  | ndc => "ndc"
  | label => "label"
  | event => "event"
  end.

(** A value of the builder's [Map<string, string | number>]. *)
Inductive Param : Type :=
| Text (s : string)
| Number (n : Z).

(** The private field [url]: initialised once, never assigned. *)
Definition url : string := "https://api.fda.gov/drug/".

(** The state of a builder: its [params] map. *)
Record OpenFDABuilder : Type := { params : gmap string Param }.

(** [new OpenFDABuilder()] *)
Definition new : OpenFDABuilder := {| params := ∅ |}.

Definition context (c : ContextType) (this : OpenFDABuilder) : OpenFDABuilder :=
  {| params := <[ "context" := Text (contextName c) ]> (params this) |}.

Definition search (query : string) (this : OpenFDABuilder) : OpenFDABuilder :=
  {| params := <[ "search" := Text query ]> (params this) |}.

(** [limit(max = 1)]: [None] is a call without argument. *)
Definition limit (max : option Z) (this : OpenFDABuilder) : OpenFDABuilder :=
  {| params := <[ "limit" := Number (default 1 max) ]> (params this) |}.

(** ToBoolean of the result of [params.get(key)]; an absent key gives
    [undefined]. *)
Definition truthy (v : option Param) : bool :=
  match v with
  | None => false
  | Some (Text s) => negb (String.eqb s "")
  | Some (Number n) => negb (n =? 0)
  end.

(** Rendering of [params.get(key)] inside a template literal. *)
Definition render (v : option Param) : string :=
  match v with
  | None => "undefined"
  | Some (Text s) => s
  | Some (Number n) => Js.numberToString n
  end.

(** Rendering of [process.env.OPENFDA_API_KEY] inside a template literal. *)
Definition renderEnv (v : option string) : string := default "undefined" v.

Inductive BuildResult : Type :=
| Returned (href : string)
| Thrown (message : string).

Definition missingParameters : string :=
  "Missing required parameters: context, search, or limit".

(** [build()], run in a process whose environment is [env]. *)
Definition build (this : OpenFDABuilder) (env : gmap string string) : BuildResult :=
  let context := params this !! "context" in
  let search := params this !! "search" in
  let limit := params this !! "limit" in
  let apiKey := env !! "OPENFDA_API_KEY" in
  if negb (truthy context) || negb (truthy search) || negb (truthy limit) then
    Thrown missingParameters
  else
    Returned (url +:+ render context +:+ ".json?api_key=" +:+ renderEnv apiKey
                  +:+ "&search=" +:+ render search
                  +:+ "&limit=" +:+ render limit).

End Builder.

(** ** normalizeNDC *)

Module NDC.

Record NDCResult : Type := {
  productNDC : string;
  packageNDC : option string;
  isValid : bool;
}.

(** White space and line terminators of the ASCII range, as removed by
    [String.prototype.trim]: TAB, LF, VT, FF, CR and SPACE. *)
Definition isWhiteSpace (c : ascii) : bool :=
  let n := nat_of_ascii c in
  ((9 <=? n)%nat && (n <=? 13)%nat) || (n =? 32)%nat.

Definition isLower (c : ascii) : bool :=
  let n := nat_of_ascii c in
  (97 <=? n)%nat && (n <=? 122)%nat.

Definition isDigit (c : ascii) : bool :=
  let n := nat_of_ascii c in
  (48 <=? n)%nat && (n <=? 57)%nat.

Definition upper (c : ascii) : ascii :=
  if isLower c then ascii_of_nat (nat_of_ascii c - 32) else c.

Fixpoint trimStart (s : string) : string :=
  match s with
  | EmptyString => EmptyString
  | String c rest => if isWhiteSpace c then trimStart rest else s
  end.

Fixpoint trimEnd (s : string) : string :=
  match s with
  | EmptyString => EmptyString
  | String c rest =>
      match trimEnd rest with
      | EmptyString => if isWhiteSpace c then EmptyString else String c EmptyString
      | rest' => String c rest'
      end
  end.

Definition trim (s : string) : string := trimEnd (trimStart s).

Fixpoint toUpperCase (s : string) : string :=
  match s with
  | EmptyString => EmptyString
  | String c rest => String (upper c) (toUpperCase rest)
  end.

(** [s.split(sep)] for a one-character separator. *)
Fixpoint split (sep : ascii) (s : string) : list string :=
  match s with
  | EmptyString => [EmptyString]
  | String c rest =>
      if Ascii.eqb c sep then EmptyString :: split sep rest
      else match split sep rest with
           | first :: others => String c first :: others
           | [] => [String c EmptyString]
           end
  end.

(** [s.substring(start, end)] *)
Definition substring (s : string) (start end_ : nat) : string :=
  let len := String.length s in
  let a := Nat.min start len in
  let b := Nat.min end_ len in
  String.substring (Nat.min a b) (Nat.max a b - Nat.min a b) s.

(** Consume [n] characters matching [\d]; the rest of the input. *)
Fixpoint digits (n : nat) (s : string) : option string :=
  match n with
  | O => Some s
  | S n =>
      match s with
      | String c rest => if isDigit c then digits n rest else None
      | EmptyString => None
      end
  end.

(** [/^\d{5}-\d{4}$/.test(s)] *)
Definition testProductPattern (s : string) : bool :=
  match digits 5 s with
  | Some (String c rest) =>
      Ascii.eqb c "-" &&
      match digits 4 rest with
      | Some EmptyString => true
      | _ => false
      end
  | _ => false
  end.

(** The tail of the function: the basic validation and the final
    [return]. *)
Definition validated (productNDC : string) (packageNDC : option string) : NDCResult :=
  {| productNDC := productNDC;
     packageNDC := packageNDC;
     isValid := testProductPattern productNDC |}.

Definition clean (ndc : string) : string := toUpperCase (trim ndc).

Definition normalizeNDC (ndc : string) : NDCResult :=
  let cleanNDC := clean ndc in
  if Js.includes cleanNDC "-" then
    match split "-" cleanNDC with
    | [_; _] => validated cleanNDC None
    | [part0; part1; _] => validated (part0 +:+ "-" +:+ part1) (Some cleanNDC)
    | _ => {| productNDC := cleanNDC; packageNDC := None; isValid := false |}
    end
  else if (String.length cleanNDC =? 11)%nat then
    validated (substring cleanNDC 0 5 +:+ "-" +:+ substring cleanNDC 5 9)
              (Some (substring cleanNDC 0 5 +:+ "-" +:+ substring cleanNDC 5 9
                       +:+ "-" +:+ substring cleanNDC 9 11))
  else if (String.length cleanNDC =? 9)%nat then
    validated (substring cleanNDC 0 5 +:+ "-" +:+ substring cleanNDC 5 9) None
  else
    {| productNDC := cleanNDC; packageNDC := None; isValid := false |}.

(** Number of occurrences of a character. *)
Fixpoint occurrences (c : ascii) (s : string) : nat :=
  match s with
  | EmptyString => O
  | String d rest => (if Ascii.eqb d c then 1 else 0) + occurrences c rest
  end.

(** Every character satisfies [p]. *)
Fixpoint all (p : ascii -> bool) (s : string) : bool :=
  match s with
  | EmptyString => true
  | String c rest => p c && all p rest
  end.

(** A character that [trim] and [toUpperCase] leave alone. *)
Definition plain (c : ascii) : bool :=
  negb (isWhiteSpace c) && negb (isLower c).

(** The result of the two early [return]s. *)
Definition unrecognised (cleanNDC : string) : NDCResult :=
  {| productNDC := cleanNDC; packageNDC := None; isValid := false |}.

End NDC.

(** ** Concrete networks and errors used as test inputs *)

Module Samples.

Definition response (status : Z) (statusText : string) (json : Fetch.JsonOutcome)
    : Fetch.Response :=
  {| Fetch.status := status; Fetch.statusText := statusText;
     Fetch.text := Some ""; Fetch.json := json |}.

Definition unavailable : Fetch.Response :=
  response 503 "Service Unavailable" (Fetch.JsonParsed Js.JNull).

Definition notFound : Fetch.Response :=
  response 404 "Not Found" (Fetch.JsonParsed Js.JNull).

Definition syntaxError : Js.ErrorObject :=
  {| Js.name := Some "SyntaxError";
     Js.message := "Unexpected token < in JSON at position 0";
     Js.instanceofError := true;
     Js.instanceofTypeError := false;
     Js.status := None |}.

Definition malformed : Fetch.Response :=
  response 200 "OK" (Fetch.JsonRejected syntaxError).

Definition literalFalse : Fetch.Response :=
  response 200 "OK" (Fetch.JsonParsed (Js.JBool false)).

(** An exception that is neither an abort nor a failed fetch. *)
Definition unexpected : Js.ErrorObject :=
  {| Js.name := Some "Error";
     Js.message := "unexpected failure";
     Js.instanceofError := true;
     Js.instanceofTypeError := false;
     Js.status := None |}.

Definition always (outcome : Fetch.Outcome) : Fetch.Network := fun _ => outcome.

Definition always503 : Fetch.Network := always (Fetch.Resolved unavailable).

End Samples.

(** ** The config argument as an object *)

Module ConfigObject.

(** The value of a property of the config: a number, or [undefined]
    (which a caller may write out: [{ maxRetries: undefined }]). *)
Inductive Value : Type :=
| Undefined
| Number (n : Z).

Definition DEFAULT_CONFIG : gmap string Value := Number <$> Client.DEFAULT_CONFIG.

(** [{ ...DEFAULT_CONFIG, ...config }]: every own property of [config]
    replaces the default of its name, whatever its value. *)
Definition spread (config : gmap string Value) : gmap string Value :=
  config ∪ DEFAULT_CONFIG.

(** Reading a property; one the object does not have reads [undefined]. *)
Definition get (object : gmap string Value) (k : string) : Value :=
  default Undefined (object !! k).

(** The constants bound by
    [const { maxRetries, retryDelay, timeout } = ...]. *)
Record Bindings : Type := {
  maxRetries : Value;
  retryDelay : Value;
  timeout : Value;
}.

Definition destructure (merged : gmap string Value) : Bindings :=
  {| maxRetries := get merged "maxRetries";
     retryDelay := get merged "retryDelay";
     timeout := get merged "timeout" |}.

Definition settings (config : gmap string Value) : Bindings :=
  destructure (spread config).

(** A config all of whose properties hold numbers. *)
Definition numeric (config : gmap string Z) : gmap string Value := Number <$> config.

Definition ofSettings (cfg : Client.Settings) : Bindings :=
  {| maxRetries := Number (Client.maxRetries cfg);
     retryDelay := Number (Client.retryDelay cfg);
     timeout := Number (Client.timeout cfg) |}.

End ConfigObject.

(** ** The retry loop in closed form *)

Module Retry.

(** An outcome after which the loop goes on when attempts remain: a
    rejection accepted by [isRetryableError], or a response with a status
    in 500..599 or equal to 429. *)
Definition retryable (o : Fetch.Outcome) : bool :=
  match o with
  | Fetch.Rejected error => Client.isRetryableError error
  | Fetch.Resolved response =>
      let s := Fetch.status response in
      negb (Fetch.ok response) && (((500 <=? s) && (s <=? 599)) || (s =? 429))
  end.

(** The object returned when the attempt with outcome [o] is the last. *)
Definition resultOf (cfg : Client.Settings) (o : Fetch.Outcome) : Client.RequestResult :=
  match o with
  | Fetch.Rejected error =>
      {| Client.data := None; Client.error := Some (Client.networkError cfg error) |}
  | Fetch.Resolved response =>
      if Fetch.ok response then
        match Fetch.json response with
        | Fetch.JsonRejected parseError =>
            {| Client.data := None;
               Client.error := Some (Client.parsingError parseError) |}
        | Fetch.JsonParsed parsedData =>
            if Js.truthy parsedData
            then {| Client.data := Some parsedData; Client.error := None |}
            else {| Client.data := None; Client.error := Some Client.emptyError |}
        end
      else
        {| Client.data := None; Client.error := Some (Client.httpError response) |}
  end.

(** Time spent sleeping in a run, in milliseconds. *)
Definition totalSleep (trace : list Client.Event) : Z :=
  foldr Z.add 0 (Client.sleeps trace).

End Retry.

(** ** More concrete networks *)

Module Scenarios.

Definition payload : Fetch.Response :=
  Samples.response 200 "OK" (Fetch.JsonParsed (Js.JObject [])).

(** Two time-outs, then a payload. *)
Definition recovers : Fetch.Network := fun attempt =>
  match attempt with
  | O | 1%nat => Fetch.Rejected Fetch.AbortError
  | _ => Fetch.Resolved payload
  end.

Definition alwaysTimeout : Fetch.Network :=
  Samples.always (Fetch.Rejected Fetch.AbortError).

End Scenarios.

(** ** The tool handlers, up to the request they issue

    Each handler is followed up to its [await makeOpenFDARequest(url)]:
    the validation of its arguments, the search expression and the call
    of the builder.  Texts of replies hold the bytes of the source's
    characters outside ASCII. *)

Module Handlers.

Definition doubleQuote : ascii := "034"%char.
Definition lineFeed : ascii := "010"%char.

(** A value between double quotes, as in [`"${value}"`]. *)
Definition quoted (value : string) : string :=
  String doubleQuote (value +:+ String doubleQuote "").

(** What a handler does first: answer at once, issue a request, or fail
    with the exception thrown by [build()]. *)
Inductive Step : Type :=
| Reply (text : string)
| Request (url : string)
| Throw (message : string).

Definition request (builder : Builder.OpenFDABuilder) (env : gmap string string) : Step :=
  match Builder.build builder env with
  | Builder.Returned url => Request url
  | Builder.Thrown message => Throw message
  end.

(** [new OpenFDABuilder().context("label").search(query).limit(max)] *)
Definition labelQuery (query : string) (max : Z) : Builder.OpenFDABuilder :=
  Builder.limit (Some max)
    (Builder.search query (Builder.context Builder.label Builder.new)).

(** get-drug-by-name and get-drug-safety-info *)
Definition drugByName (drugName : string) (env : gmap string string) : Step :=
  request (labelQuery ("openfda.brand_name:" +:+ quoted drugName) 1) env.

(** get-drug-by-generic-name; [limit] is optional with default 5. *)
Definition drugByGenericName (genericName : string) (limit : option Z)
    (env : gmap string string) : Step :=
  request (labelQuery ("openfda.generic_name:" +:+ quoted genericName)
             (default 5 limit)) env.

(** get-drugs-by-manufacturer; [limit] is optional with default 20. *)
Definition drugsByManufacturer (manufacturerName : string) (limit : option Z)
    (env : gmap string string) : Step :=
  request (labelQuery ("openfda.manufacturer_name:" +:+ quoted manufacturerName)
             (default 20 limit)) env.

Inductive Seriousness : Type := serious | nonSerious | all.

Definition adverseEventsQuery (drugName : string) (seriousness : Seriousness) : string :=
  let searchQuery := "patient.drug.medicinalproduct:" +:+ quoted drugName in
  match seriousness with
  | all => searchQuery
  | serious => searchQuery +:+ "+AND+serious:" +:+ "1"
  | nonSerious => searchQuery +:+ "+AND+serious:" +:+ "2"
  end.

(** get-drug-adverse-events; [limit] is optional with default 10,
    [seriousness] with default "all". *)
Definition drugAdverseEvents (drugName : string) (limit : option Z)
    (seriousness : option Seriousness) (env : gmap string string) : Step :=
  request
    (Builder.limit (Some (default 10 limit))
       (Builder.search (adverseEventsQuery drugName (default all seriousness))
          (Builder.context Builder.event Builder.new)))
    env.

(** ToBoolean of a [string | null]. *)
Definition present (s : option string) : bool :=
  match s with
  | Some text => negb (String.eqb text "")
  | None => false
  end.

Definition ndcSearchQuery (productNDC : string) (packageNDC : option string) : string :=
  let searchQuery := "openfda.product_ndc:" +:+ quoted productNDC in
  if present packageNDC
  then searchQuery +:+ "+OR+openfda.package_ndc:" +:+ quoted (default "" packageNDC)
  else searchQuery.

Definition invalidNdcFormat (ndcCode : string) : string :=
  "Invalid NDC format: " +:+ quoted ndcCode +:+ String lineFeed (String lineFeed
  ("✅ Accepted formats:" +:+ String lineFeed
  ("• Product NDC: 12345-1234" +:+ String lineFeed
  ("• Package NDC: 12345-1234-01" +:+ String lineFeed
   "• Without dashes: 123451234 or 12345123401")))).

(** get-drug-by-ndc *)
Definition drugByNdc (ndcCode : string) (env : gmap string string) : Step :=
  let r := NDC.normalizeNDC ndcCode in
  if negb (NDC.isValid r) then Reply (invalidNdcFormat ndcCode)
  else request (labelQuery (ndcSearchQuery (NDC.productNDC r) (NDC.packageNDC r)) 10) env.

Definition invalidProductNdcFormat (productNDC : string) : string :=
  "Invalid product NDC format: " +:+ quoted productNDC +:+ String lineFeed (String lineFeed
  "✅ Required format: XXXXX-XXXX (e.g., 12345-1234)").

(** get-drug-by-product-ndc *)
Definition drugByProductNdc (productNDC : string) (env : gmap string string) : Step :=
  if negb (NDC.testProductPattern (NDC.trim productNDC))
  then Reply (invalidProductNdcFormat productNDC)
  else request (labelQuery ("openfda.product_ndc:" +:+ quoted (NDC.trim productNDC)) 1) env.

(** [s.startsWith(prefix)] *)
Definition startsWith (s prefix : string) : bool := String.prefix prefix s.

(** [array?.filter(keep) || []] for an optional array of strings. *)
Definition filterOptional (keep : string -> bool) (array : option (list string))
    : list string :=
  default [] (List.filter keep <$> array).

(** [matchingPackageNDCs] of get-drug-by-ndc *)
Definition matchingPackageNDCs (productNDC : string) (packageNDC : option string)
    (package_ndc : option (list string)) : list string :=
  filterOptional
    (fun ndc => if present packageNDC
                then String.eqb ndc (default "" packageNDC)
                else startsWith ndc productNDC)
    package_ndc.

(** [allPackagesForProduct] of get-drug-by-product-ndc *)
Definition allPackagesForProduct (productNDC : string) (package_ndc : option (list string))
    : list string :=
  filterOptional (fun ndc => startsWith ndc (NDC.trim productNDC)) package_ndc.

End Handlers.

(** ** scripts/add-shebang.cjs *)

Module Shebang.

Definition shebang : string := "#!/usr/bin/env node" +:+ String Handlers.lineFeed "".

(** A run of the script on a file system (path to content): [None] when
    [readFileSync] throws because the file does not exist, otherwise the
    file system left behind and the writes made, in order. *)
Definition run (buildPath : string) (fs : gmap string string)
    : option (gmap string string * list (string * string)) :=
  match fs !! buildPath with
  | None => None
  | Some content =>
      if negb (Handlers.startsWith content shebang) then
        let content := shebang +:+ content in
        Some (<[ buildPath := content ]> fs, [(buildPath, content)])
      else Some (fs, [])
  end.

End Shebang.

(** ** bin/index.js: the request function without retries *)

Module Legacy.

(** [makeOpenFDARequest(url)] of [bin/index.js]: the parsed body, or
    [null] ([Js.JNull]) when the fetch rejects, the status is outside
    200..299, or the body does not parse. *)
Definition makeOpenFDARequest (outcome : Fetch.Outcome) : Js.JsonValue :=
  match outcome with
  | Fetch.Rejected _ => Js.JNull
  | Fetch.Resolved response =>
      if negb (Fetch.ok response) then Js.JNull
      else match Fetch.json response with
           | Fetch.JsonRejected _ => Js.JNull
           | Fetch.JsonParsed parsedData => parsedData
           end
  end.

End Legacy.

(** ** Sanity checks of the embedding *)

Example includes_fetch : Js.includes "fetch failed" "fetch" = true.
Proof. reflexivity. Qed.

Example numberToString_503 : Js.numberToString 503 = "503".
Proof. reflexivity. Qed.

Example truthy_zero : Js.truthy (Js.JNumber 0%float) = false.
Proof. reflexivity. Qed.

Example normalize_package :
  NDC.normalizeNDC "12345-1234-01" =
  {| NDC.productNDC := "12345-1234";
     NDC.packageNDC := Some "12345-1234-01";
     NDC.isValid := true |}.
Proof. reflexivity. Qed.

Example normalize_nine_digits :
  NDC.normalizeNDC "123451234" =
  {| NDC.productNDC := "12345-1234"; NDC.packageNDC := None; NDC.isValid := true |}.
Proof. reflexivity. Qed.

Example normalize_eleven_digits :
  NDC.normalizeNDC " 12345678901 " =
  {| NDC.productNDC := "12345-6789";
     NDC.packageNDC := Some "12345-6789-01";
     NDC.isValid := true |}.
Proof. reflexivity. Qed.

Example normalize_abc : NDC.isValid (NDC.normalizeNDC "abc") = false.
Proof. reflexivity. Qed.

Example split_trailing : NDC.split "-" "a--b-" = ["a"; ""; "b"; ""].
Proof. reflexivity. Qed.

(** A time-out on the first attempt, then a payload: one retry after the
    base delay. *)
Example timeout_then_success :
  Client.makeOpenFDARequest "u" ∅
    (fun attempt =>
       match attempt with
       | O => Fetch.Rejected Fetch.AbortError
       | _ => Fetch.Resolved (Samples.response 200 "OK" (Fetch.JsonParsed (Js.JObject [])))
       end) =
  Some ({| Client.data := Some (Js.JObject []); Client.error := None |},
        [Client.CallFetch "u" 0; Client.Sleep 1000; Client.CallFetch "u" 1]).
Proof. reflexivity. Qed.

(** A failed connection on every attempt: all four attempts are used. *)
Example network_down :
  option_map snd
    (Client.makeOpenFDARequest "u" ∅ (Samples.always (Fetch.Rejected Fetch.fetchFailed))) =
  Some [Client.CallFetch "u" 0; Client.Sleep 1000;
        Client.CallFetch "u" 1; Client.Sleep 2000;
        Client.CallFetch "u" 2; Client.Sleep 4000;
        Client.CallFetch "u" 3].
Proof. reflexivity. Qed.

(** With a negative [maxRetries] the loop body never runs. *)
Example negative_maxRetries :
  Client.makeOpenFDARequest "u" {[ "maxRetries" := -1 ]} Samples.always503 =
  Some ({| Client.data := None; Client.error := None |}, []).
Proof. reflexivity. Qed.

(** ** Properties of the request client *)

Section ClientLoop.

Variables (cfg : Client.Settings) (url : string) (net : Fetch.Network).

Lemma loop_unfold fuel attempt lastError trace :
  Client.loop cfg url net (S fuel) attempt lastError trace =
  if Z.of_nat attempt <=? Client.maxRetries cfg then
    match Client.iteration cfg net attempt lastError with
    | (_, Client.Return parsedData) =>
        Some ({| Client.data := Some parsedData; Client.error := None |},
              trace ++ [Client.CallFetch url attempt])
    | (lastError', Client.Break) =>
        Some ({| Client.data := None; Client.error := lastError' |},
              trace ++ [Client.CallFetch url attempt])
    | (lastError', Client.Continue delay) =>
        Client.loop cfg url net fuel (S attempt) lastError'
          ((trace ++ [Client.CallFetch url attempt]) ++ [Client.Sleep delay])
    end
  else Some ({| Client.data := None; Client.error := lastError |}, trace).
Proof. reflexivity. Qed.

(** Every way out of an iteration other than [return] has assigned
    [lastError]; a [return] carries a truthy payload. *)
(** Membership of a concrete tag in the taxonomy. *)
Local Ltac tagged := unfold Client.classified, Client.errorTypes; simpl; tauto.

Lemma networkError_classified error :
  Client.classified (Client.networkError cfg error).
Proof.
  unfold Client.networkError.
  destruct (Client.nameIs error "AbortError"); [tagged |].
  destruct (_ && _); tagged.
Qed.

Lemma iteration_outcome attempt lastError :
  match Client.iteration cfg net attempt lastError with
  | (_, Client.Return parsedData) => Js.truthy parsedData = true
  | (lastError', _) => exists e, lastError' = Some e /\ Client.classified e
  end.
Proof.
  unfold Client.iteration.
  destruct (net attempt) as [error | response].
  - pose proof (networkError_classified error). destruct (_ && _); eauto.
  - assert (Client.classified (Client.httpError response)) by tagged.
    destruct (negb (Fetch.ok response)).
    + destruct (_ && _ && _); [eauto |]. destruct (_ && _); eauto.
    + destruct (Fetch.json response) as [pe | v].
      * eexists. split; [reflexivity | tagged].
      * destruct (Js.truthy v) eqn:Hv; simpl; [done |].
        eexists. split; [reflexivity | tagged].
Qed.

Lemma loop_populated fuel : forall attempt lastError trace,
  (Client.remaining cfg attempt < fuel)%nat ->
  Z.of_nat attempt <= Client.maxRetries cfg \/
  (exists e, lastError = Some e /\ Client.classified e) ->
  exists r trace',
    Client.loop cfg url net fuel attempt lastError trace = Some (r, trace') /\
    Client.populated r.
Proof.
  unfold Client.remaining.
  induction fuel as [| fuel IH]; intros attempt lastError trace Hfuel Hinv; [lia |].
  rewrite loop_unfold.
  destruct (Z.leb_spec (Z.of_nat attempt) (Client.maxRetries cfg)) as [Hle | Hgt].
  - pose proof (iteration_outcome attempt lastError) as Hout.
    destruct (Client.iteration cfg net attempt lastError) as [lastError' [v | | delay]].
    + eexists _, _. split; [reflexivity |]. exact Hout.
    + destruct Hout as (e & -> & He). eexists _, _. split; [reflexivity |]. exact He.
    + apply IH; [lia | by right].
  - destruct Hinv as [Hle | (e & -> & He)]; [lia |].
    eexists _, _. split; [reflexivity |]. exact He.
Qed.

Lemma attempts_app (t1 t2 : list Client.Event) :
  Client.attempts (t1 ++ t2) = (Client.attempts t1 + Client.attempts t2)%nat.
Proof. unfold Client.attempts. by rewrite List.filter_app, length_app. Qed.

Lemma attempts_fetch attempt : Client.attempts [Client.CallFetch url attempt] = 1%nat.
Proof. reflexivity. Qed.

Lemma attempts_sleep ms : Client.attempts [Client.Sleep ms] = 0%nat.
Proof. reflexivity. Qed.

Lemma loop_attempts_bound fuel : forall attempt lastError trace r trace',
  Client.loop cfg url net fuel attempt lastError trace = Some (r, trace') ->
  (Client.attempts trace' <= Client.attempts trace + Client.remaining cfg attempt)%nat.
Proof.
  unfold Client.remaining.
  induction fuel as [| fuel IH]; intros attempt lastError trace r trace' Hrun;
    [discriminate |].
  rewrite loop_unfold in Hrun.
  destruct (Z.leb_spec (Z.of_nat attempt) (Client.maxRetries cfg)) as [Hle | Hgt].
  - destruct (Client.iteration cfg net attempt lastError) as [lastError' [v | | delay]].
    + injection Hrun as _ <-. rewrite attempts_app, attempts_fetch. lia.
    + injection Hrun as _ <-. rewrite attempts_app, attempts_fetch. lia.
    + apply IH in Hrun.
      rewrite !attempts_app, attempts_fetch, attempts_sleep in Hrun. lia.
  - injection Hrun as _ <-. lia.
Qed.

Lemma isRetryableError_statusOnly s :
  Client.isRetryableError (Client.statusOnly s) =
  ((500 <=? s) && (s <=? 599)) || (s =? 429).
Proof.
  unfold Client.isRetryableError, Client.statusOnly, Client.nameIs,
    Client.statusSatisfies; simpl.
  destruct ((500 <=? s) && (s <=? 599)), (s =? 429); reflexivity.
Qed.

Lemma iteration_terminal attempt lastError response :
  net attempt = Fetch.Resolved response ->
  Client.terminalResponse response = true ->
  Client.iteration cfg net attempt lastError =
  (Some (Client.terminalError response), Client.Break).
Proof.
  intros Hnet Hterm. unfold Client.iteration. rewrite Hnet.
  unfold Client.terminalResponse, Client.terminalError in *.
  destruct (Fetch.ok response); simpl.
  - destruct (Fetch.json response) as [pe | v]; [reflexivity |].
    by rewrite Hterm.
  - rewrite isRetryableError_statusOnly.
    apply negb_true_iff in Hterm. rewrite Hterm, andb_false_r.
    by destruct (_ && _ && _).
Qed.

Lemma iteration_503 attempt lastError response :
  net attempt = Fetch.Resolved response ->
  Fetch.status response = 503 ->
  Client.iteration cfg net attempt lastError =
  (Some (Client.httpError response),
   if Z.of_nat attempt <? Client.maxRetries cfg
   then Client.Continue (Client.backoff cfg attempt)
   else Client.Break).
Proof.
  intros Hnet Hst. unfold Client.iteration. rewrite Hnet.
  unfold Fetch.ok. rewrite isRetryableError_statusOnly, Hst. simpl.
  by destruct (Z.of_nat attempt <? Client.maxRetries cfg).
Qed.

Lemma loop_all_503 :
  (forall i, exists response,
      net i = Fetch.Resolved response /\ Fetch.status response = 503) ->
  forall retries fuel attempt lastError trace,
  Z.of_nat attempt + Z.of_nat retries = Client.maxRetries cfg ->
  (retries < fuel)%nat ->
  exists response,
    Fetch.status response = 503 /\
    Client.loop cfg url net fuel attempt lastError trace =
    Some ({| Client.data := None;
             Client.error := Some (Client.httpError response) |},
          trace ++ Client.backoffTrace cfg url retries attempt).
Proof.
  intros Hall.
  induction retries as [| retries IH]; intros fuel attempt lastError trace Hsum Hfuel;
    (destruct fuel as [| fuel]; [lia |]);
    destruct (Hall attempt) as (response & Hnet & Hst);
    rewrite loop_unfold, (iteration_503 _ _ _ Hnet Hst);
    (destruct (Z.leb_spec (Z.of_nat attempt) (Client.maxRetries cfg)); [| lia]).
  - destruct (Z.ltb_spec (Z.of_nat attempt) (Client.maxRetries cfg)); [lia |].
    by exists response.
  - destruct (Z.ltb_spec (Z.of_nat attempt) (Client.maxRetries cfg)); [| lia].
    destruct (IH fuel (S attempt) (Some (Client.httpError response))
                ((trace ++ [Client.CallFetch url attempt])
                   ++ [Client.Sleep (Client.backoff cfg attempt)]))
      as (last & Hlast & Hrun); [lia | lia |].
    exists last. split; [exact Hlast |].
    rewrite Hrun. simpl. by rewrite <- !app_assoc.
Qed.

Lemma attempts_backoffTrace retries : forall attempt,
  Client.attempts (Client.backoffTrace cfg url retries attempt) = S retries.
Proof.
  induction retries as [| retries IH]; intros attempt; [reflexivity |].
  simpl. change (Client.attempts (?e :: ?f :: ?t)) with (S (Client.attempts t)).
  by rewrite IH.
Qed.

Lemma sleeps_backoffTrace retries : forall attempt,
  Client.sleeps (Client.backoffTrace cfg url retries attempt) =
  map (Client.backoff cfg) (seq attempt retries).
Proof.
  induction retries as [| retries IH]; intros attempt; [reflexivity |].
  simpl. change (Client.sleeps (?e :: Client.Sleep ?d :: ?t)) with (d :: Client.sleeps t).
  by rewrite IH.
Qed.

Lemma fetched_app (t1 t2 : list Client.Event) :
  Client.fetched (t1 ++ t2) = Client.fetched t1 ++ Client.fetched t2.
Proof. apply omap_app. Qed.

(** Once a terminal response is due at attempt [k], no attempt after [k]
    is made. *)
Lemma loop_stops_at (k : nat) response :
  net k = Fetch.Resolved response ->
  Client.terminalResponse response = true ->
  forall fuel attempt lastError trace r trace',
  (attempt <= k)%nat ->
  Client.loop cfg url net fuel attempt lastError trace = Some (r, trace') ->
  exists suffix,
    trace' = trace ++ suffix /\
    Forall (fun a => (a <= k)%nat) (Client.fetched suffix).
Proof.
  intros Hnet Hterm.
  induction fuel as [| fuel IH]; intros attempt lastError trace r trace' Hle Hrun;
    [discriminate |].
  rewrite loop_unfold in Hrun.
  destruct (Z.of_nat attempt <=? Client.maxRetries cfg).
  - destruct (decide (attempt = k)) as [-> | Hne].
    + rewrite (iteration_terminal _ _ _ Hnet Hterm) in Hrun.
      injection Hrun as _ <-. eexists. split; [reflexivity |].
      by repeat constructor.
    + destruct (Client.iteration cfg net attempt lastError) as [lastError' [v | | delay]].
      * injection Hrun as _ <-. eexists. split; [reflexivity |].
        by repeat constructor.
      * injection Hrun as _ <-. eexists. split; [reflexivity |].
        by repeat constructor.
      * apply IH in Hrun; [| lia]. destruct Hrun as (suffix & -> & Hall).
        exists ([Client.CallFetch url attempt; Client.Sleep delay] ++ suffix).
        split; [by rewrite <- !app_assoc |].
        rewrite fetched_app. apply Forall_app. split; [| exact Hall].
        by repeat constructor.
  - injection Hrun as _ <-. exists []. split; [by rewrite app_nil_r | constructor].
Qed.

End ClientLoop.

(** ** The effective settings of a call *)

Lemma DEFAULT_CONFIG_lookup :
  Client.DEFAULT_CONFIG !! "maxRetries" = Some 3 /\
  Client.DEFAULT_CONFIG !! "retryDelay" = Some 1000 /\
  Client.DEFAULT_CONFIG !! "timeout" = Some 30000.
Proof. repeat split; reflexivity. Qed.

Lemma spread_lookup (config : gmap string Z) (k : string) :
  Client.spread config !! k =
  match config !! k with
  | Some v => Some v
  | None => Client.DEFAULT_CONFIG !! k
  end.
Proof.
  unfold Client.spread. rewrite lookup_union.
  destruct (config !! k), (Client.DEFAULT_CONFIG !! k); reflexivity.
Qed.

(** The settings of a call whose config holds numbers only. *)
Lemma settings_of_numbers (config : gmap string Z) :
  Client.maxRetries (Client.settings config) = default 3 (config !! "maxRetries") /\
  Client.retryDelay (Client.settings config) = default 1000 (config !! "retryDelay") /\
  Client.timeout (Client.settings config) = default 30000 (config !! "timeout").
Proof.
  destruct DEFAULT_CONFIG_lookup as (Hm & Hd & Ht).
  unfold Client.settings, Client.destructure; cbn [Client.maxRetries Client.retryDelay Client.timeout].
  rewrite !lookup_total_alt, !spread_lookup, Hm, Hd, Ht.
  by destruct (config !! "maxRetries"), (config !! "retryDelay"), (config !! "timeout").
Qed.

Lemma config_lookup (config : gmap string ConfigObject.Value) (k : string) :
  ConfigObject.get (ConfigObject.spread config) k =
  match config !! k with
  | Some v => v
  | None => from_option ConfigObject.Number ConfigObject.Undefined
              (Client.DEFAULT_CONFIG !! k)
  end.
Proof.
  unfold ConfigObject.get, ConfigObject.spread, ConfigObject.DEFAULT_CONFIG.
  rewrite lookup_union, lookup_fmap.
  by destruct (config !! k), (Client.DEFAULT_CONFIG !! k).
Qed.

(** C7, as stated, fails.  The request function reads the fields
    [maxRetries], [retryDelay] and [timeout]: a config giving
    retryDelayMs and timeoutMs overrides nothing, the call runs with the
    delay 1000 and reports the time-out 30000.  And a field the config
    holds with the value [undefined] is not given its default. *)
Lemma renamed_fields_override_nothing :
  let config : gmap string Z := {[ "retryDelayMs" := 5; "timeoutMs" := 7 ]} in
  Client.settings config =
    {| Client.maxRetries := 3; Client.retryDelay := 1000; Client.timeout := 30000 |} /\
  option_map snd (Client.makeOpenFDARequest "u" config Samples.always503) =
    Some [Client.CallFetch "u" 0; Client.Sleep 1000;
          Client.CallFetch "u" 1; Client.Sleep 2000;
          Client.CallFetch "u" 2; Client.Sleep 4000;
          Client.CallFetch "u" 3] /\
  ConfigObject.maxRetries
    (ConfigObject.settings {[ "maxRetries" := ConfigObject.Undefined ]}) =
    ConfigObject.Undefined.
Proof. repeat split; reflexivity. Qed.

(** C7, amended: a caller-supplied config may override any subset of the
    fields named [maxRetries], [retryDelay] and [timeout]; each of these
    three that is absent from the config takes its default, 3, 1000 and
    30000; one that is present is taken as given, also when its value is
    [undefined]; and any other property of the config (retryDelayMs and
    timeoutMs among them) is ignored.  On a config holding numbers these
    are the settings the request function runs with. *)
Theorem config_overrides_defaults (config : gmap string ConfigObject.Value) :
  (ConfigObject.maxRetries (ConfigObject.settings config) =
     default (ConfigObject.Number 3) (config !! "maxRetries") /\
   ConfigObject.retryDelay (ConfigObject.settings config) =
     default (ConfigObject.Number 1000) (config !! "retryDelay") /\
   ConfigObject.timeout (ConfigObject.settings config) =
     default (ConfigObject.Number 30000) (config !! "timeout")) /\
  (forall (other : string) (v : ConfigObject.Value),
      other <> "maxRetries" -> other <> "retryDelay" -> other <> "timeout" ->
      ConfigObject.settings (<[ other := v ]> config) = ConfigObject.settings config) /\
  (forall numbers : gmap string Z,
      ConfigObject.settings (ConfigObject.numeric numbers) =
      ConfigObject.ofSettings (Client.settings numbers)).
Proof.
  destruct DEFAULT_CONFIG_lookup as (Hm & Hd & Ht).
  split; [| split].
  - unfold ConfigObject.settings, ConfigObject.destructure.
    cbn [ConfigObject.maxRetries ConfigObject.retryDelay ConfigObject.timeout].
    rewrite !config_lookup, Hm, Hd, Ht.
    by destruct (config !! "maxRetries"), (config !! "retryDelay"), (config !! "timeout").
  - intros other v H1 H2 H3.
    unfold ConfigObject.settings, ConfigObject.destructure.
    rewrite !config_lookup. by rewrite !lookup_insert_ne.
  - intros numbers.
    destruct (settings_of_numbers numbers) as (Hm' & Hd' & Ht').
    unfold ConfigObject.settings, ConfigObject.destructure, ConfigObject.ofSettings,
      ConfigObject.numeric.
    rewrite !config_lookup, !lookup_fmap, Hm, Hd, Ht, Hm', Hd', Ht'.
    by destruct (numbers !! "maxRetries"), (numbers !! "retryDelay"),
      (numbers !! "timeout").
Qed.

Lemma config_overrides_defaults_witness :
  ConfigObject.settings
    (<[ "retryDelayMs" := ConfigObject.Number 5 ]> {[ "maxRetries" := ConfigObject.Number 1 ]}) =
  ConfigObject.settings {[ "maxRetries" := ConfigObject.Number 1 ]} /\
  ConfigObject.settings {[ "maxRetries" := ConfigObject.Number 1 ]} =
  {| ConfigObject.maxRetries := ConfigObject.Number 1;
     ConfigObject.retryDelay := ConfigObject.Number 1000;
     ConfigObject.timeout := ConfigObject.Number 30000 |}.
Proof.
  destruct (config_overrides_defaults {[ "maxRetries" := ConfigObject.Number 1 ]})
    as (_ & Hother & Hnumbers).
  split.
  - apply Hother; discriminate.
  - exact (Hnumbers {[ "maxRetries" := 1 ]}).
Defined.

(** ** Claims about the request client *)

Lemma enoughFuel_remaining (cfg : Client.Settings) :
  (Client.remaining cfg 0 < Client.enoughFuel cfg)%nat.
Proof.
  unfold Client.remaining, Client.enoughFuel.
  replace (Client.maxRetries cfg + 1 - Z.of_nat 0) with (Client.maxRetries cfg + 1) by lia.
  lia.
Qed.

(** C6: for every URL and every config whose [maxRetries] is not negative,
    the request function returns (it neither runs out of iterations nor
    leaves an exception uncaught: rejections of [fetch], [text()] and
    [json()] all end in a handler), and in the returned object exactly one
    of [data] and [error] is populated: either [data] is the parsed
    (truthy) payload and [error] is [null], or [data] is [null] and
    [error] is an error record carrying one of the six type tags. *)
Theorem result_exactly_one_populated (url : string) (config : gmap string Z)
    (net : Fetch.Network) :
  0 <= Client.maxRetries (Client.settings config) ->
  exists r trace,
    Client.makeOpenFDARequest url config net = Some (r, trace) /\
    ((exists parsedData,
         Client.data r = Some parsedData /\ Client.error r = None /\
         Js.truthy parsedData = true) \/
     (Client.data r = None /\
      exists e, Client.error r = Some e /\ In (Client.type e) Client.errorTypes)).
Proof.
  intros Hmax. unfold Client.makeOpenFDARequest.
  destruct (loop_populated (Client.settings config) url net
              (Client.enoughFuel (Client.settings config)) 0 None [])
    as (r & trace & Hrun & Hpop).
  - apply enoughFuel_remaining.
  - left. lia.
  - exists r, trace. split; [exact Hrun |].
    unfold Client.populated in Hpop.
    destruct (Client.data r) as [v |], (Client.error r) as [e |]; try contradiction.
    + left. eauto.
    + right. eauto.
Qed.

Lemma result_exactly_one_populated_witness :
  exists r trace,
    Client.makeOpenFDARequest "u" ∅ Samples.always503 = Some (r, trace) /\
    ((exists parsedData,
         Client.data r = Some parsedData /\ Client.error r = None /\
         Js.truthy parsedData = true) \/
     (Client.data r = None /\
      exists e, Client.error r = Some e /\ In (Client.type e) Client.errorTypes)).
Proof.
  apply (result_exactly_one_populated "u" ∅ Samples.always503).
  vm_compute. discriminate.
Defined.

(** C3: with [maxRetries = n >= 0] at most [n + 1] fetches are issued;
    and when every attempt is answered with status 503 there are exactly
    [n + 1] of them, attempt [i] (for [i = 0 .. n-1]) is followed by a
    sleep of [retryDelay * 2^i], and the result is an error of type
    ["http"] (with status 503). *)
Theorem retry_budget_and_backoff (url : string) (config : gmap string Z)
    (net : Fetch.Network) (n : nat) :
  Client.maxRetries (Client.settings config) = Z.of_nat n ->
  exists r trace,
    Client.makeOpenFDARequest url config net = Some (r, trace) /\
    (Client.attempts trace <= n + 1)%nat /\
    ((forall i, exists response,
         net i = Fetch.Resolved response /\ Fetch.status response = 503) ->
     trace = Client.backoffTrace (Client.settings config) url n 0 /\
     Client.attempts trace = (n + 1)%nat /\
     Client.sleeps trace =
       map (fun i => Client.retryDelay (Client.settings config) * 2 ^ Z.of_nat i)
           (seq 0 n) /\
     Client.data r = None /\
     exists e, Client.error r = Some e /\
               Client.type e = "http" /\ Client.status e = Some 503).
Proof.
  intros Hmax. unfold Client.makeOpenFDARequest.
  set (cfg := Client.settings config) in *.
  destruct (loop_populated cfg url net (Client.enoughFuel cfg) 0 None [])
    as (r & trace & Hrun & _); [apply enoughFuel_remaining | left; lia |].
  exists r, trace. split; [exact Hrun |]. split.
  - pose proof (loop_attempts_bound cfg url net _ _ _ _ _ _ Hrun) as Hbound.
    unfold Client.remaining in Hbound. rewrite Hmax in Hbound.
    change (Client.attempts []) with 0%nat in Hbound. lia.
  - intros Hall.
    destruct (loop_all_503 cfg url net Hall n (Client.enoughFuel cfg) 0 None [])
      as (response & Hst & Hrun'); [lia | unfold Client.enoughFuel; lia |].
    rewrite Hrun' in Hrun. injection Hrun as <- <-. simpl.
    split; [reflexivity |]. split; [rewrite attempts_backoffTrace; lia |].
    split; [apply sleeps_backoffTrace |]. split; [reflexivity |].
    eexists. split; [reflexivity |]. split; [reflexivity |].
    simpl. by rewrite Hst.
Qed.

Lemma retry_budget_and_backoff_witness :
  exists r,
    Client.makeOpenFDARequest "u" {[ "maxRetries" := 2 ]} Samples.always503 =
    Some (r, [Client.CallFetch "u" 0; Client.Sleep 1000;
              Client.CallFetch "u" 1; Client.Sleep 2000;
              Client.CallFetch "u" 2]) /\
    exists e, Client.error r = Some e /\ Client.type e = "http".
Proof.
  destruct (retry_budget_and_backoff "u" {[ "maxRetries" := 2 ]} Samples.always503 2)
    as (r & trace & Hrun & _ & Hall); [reflexivity |].
  destruct Hall as (Htrace & _ & _ & _ & e & He & Hty & _).
  - intros i. eexists. split; reflexivity.
  - exists r. rewrite Htrace in Hrun. split; [exact Hrun | eauto].
Defined.

Lemma first_attempt_terminal (url : string) (config : gmap string Z)
    (net : Fetch.Network) (response : Fetch.Response) :
  0 <= Client.maxRetries (Client.settings config) ->
  net 0%nat = Fetch.Resolved response ->
  Client.terminalResponse response = true ->
  Client.makeOpenFDARequest url config net =
  Some ({| Client.data := None;
           Client.error := Some (Client.terminalError response) |},
        [Client.CallFetch url 0]).
Proof.
  intros Hmax Hnet Hterm. unfold Client.makeOpenFDARequest, Client.enoughFuel.
  rewrite loop_unfold, (iteration_terminal _ _ _ _ _ Hnet Hterm).
  by destruct (Z.leb_spec (Z.of_nat 0) (Client.maxRetries (Client.settings config)));
    [| lia].
Qed.

(** C4: a response with a non-retryable classification ends the call at
    that attempt.  A 404 on the first attempt gives an ["http"] error after
    exactly one fetch and no sleep; a 2xx response whose body does not
    parse gives a ["parsing"] error after exactly one fetch and no sleep,
    whatever [maxRetries >= 0] is; and in general no attempt is made after
    the one answered by a terminal response. *)
Theorem terminal_response_single_attempt (url : string) (config : gmap string Z)
    (net : Fetch.Network) :
  0 <= Client.maxRetries (Client.settings config) ->
  (forall response,
      net 0%nat = Fetch.Resolved response -> Fetch.status response = 404 ->
      Client.type (Client.httpError response) = "http" /\
      Client.makeOpenFDARequest url config net =
      Some ({| Client.data := None;
               Client.error := Some (Client.httpError response) |},
            [Client.CallFetch url 0])) /\
  (forall response parseError,
      net 0%nat = Fetch.Resolved response -> Fetch.ok response = true ->
      Fetch.json response = Fetch.JsonRejected parseError ->
      Client.type (Client.parsingError parseError) = "parsing" /\
      Client.makeOpenFDARequest url config net =
      Some ({| Client.data := None;
               Client.error := Some (Client.parsingError parseError) |},
            [Client.CallFetch url 0])) /\
  (forall k response r trace,
      net k = Fetch.Resolved response ->
      Client.terminalResponse response = true ->
      Client.makeOpenFDARequest url config net = Some (r, trace) ->
      Forall (fun attempt => (attempt <= k)%nat) (Client.fetched trace)).
Proof.
  intros Hmax. split; [| split].
  - intros response Hnet Hst. split; [reflexivity |].
    rewrite (first_attempt_terminal url config net response Hmax Hnet).
    + unfold Client.terminalError, Fetch.ok. by rewrite Hst.
    + unfold Client.terminalResponse, Fetch.ok. by rewrite Hst.
  - intros response parseError Hnet Hok Hjson. split; [reflexivity |].
    rewrite (first_attempt_terminal url config net response Hmax Hnet).
    + unfold Client.terminalError. by rewrite Hok, Hjson.
    + unfold Client.terminalResponse. by rewrite Hok, Hjson.
  - intros k response r trace Hnet Hterm Hrun.
    destruct (loop_stops_at (Client.settings config) url net k response Hnet Hterm
                (Client.enoughFuel (Client.settings config)) 0%nat None [] r trace)
      as (suffix & -> & Hall); [lia | exact Hrun | exact Hall].
Qed.

Lemma terminal_response_single_attempt_witness :
  Client.makeOpenFDARequest "u" ∅ (Samples.always (Fetch.Resolved Samples.notFound)) =
  Some ({| Client.data := None;
           Client.error := Some (Client.httpError Samples.notFound) |},
        [Client.CallFetch "u" 0]) /\
  Client.makeOpenFDARequest "u" {[ "maxRetries" := 5 ]}
    (Samples.always (Fetch.Resolved Samples.malformed)) =
  Some ({| Client.data := None;
           Client.error := Some (Client.parsingError Samples.syntaxError) |},
        [Client.CallFetch "u" 0]).
Proof.
  split.
  - destruct (terminal_response_single_attempt "u" ∅
                (Samples.always (Fetch.Resolved Samples.notFound)))
      as (H404 & _ & _); [vm_compute; discriminate |].
    destruct (H404 Samples.notFound) as [_ Hrun]; [reflexivity | reflexivity |].
    exact Hrun.
  - destruct (terminal_response_single_attempt "u" {[ "maxRetries" := 5 ]}
                (Samples.always (Fetch.Resolved Samples.malformed)))
      as (_ & Hparse & _); [vm_compute; discriminate |].
    destruct (Hparse Samples.malformed Samples.syntaxError) as [_ Hrun];
      [reflexivity | reflexivity | reflexivity |].
    exact Hrun.
Defined.

(** C10: a 2xx response whose body parses to a falsy value ends the call
    at that attempt with [data = null] and the ["empty_response"] error;
    the JSON values [null], [false], [0] and the empty string are all
    falsy, so such well-formed bodies are reported as empty responses and
    never returned as data. *)
Theorem falsy_payload_is_empty_response (cfg : Client.Settings) (url : string)
    (net : Fetch.Network) (fuel attempt : nat)
    (lastError : option Client.ErrorRecord) (trace : list Client.Event)
    (response : Fetch.Response) (parsedData : Js.JsonValue) :
  Z.of_nat attempt <= Client.maxRetries cfg ->
  net attempt = Fetch.Resolved response ->
  Fetch.ok response = true ->
  Fetch.json response = Fetch.JsonParsed parsedData ->
  Js.truthy parsedData = false ->
  (Client.loop cfg url net (S fuel) attempt lastError trace =
   Some ({| Client.data := None; Client.error := Some Client.emptyError |},
         trace ++ [Client.CallFetch url attempt]) /\
   Client.type Client.emptyError = "empty_response") /\
  Js.truthy Js.JNull = false /\
  Js.truthy (Js.JBool false) = false /\
  Js.truthy (Js.JNumber 0%float) = false /\
  Js.truthy (Js.JString "") = false.
Proof.
  intros Hle Hnet Hok Hjson Hfalsy.
  split; [| repeat split].
  rewrite loop_unfold. unfold Client.iteration.
  rewrite Hnet, Hok, Hjson, Hfalsy. simpl.
  by destruct (Z.leb_spec (Z.of_nat attempt) (Client.maxRetries cfg)); [| lia].
Qed.

Lemma falsy_payload_is_empty_response_witness :
  Client.makeOpenFDARequest "u" ∅ (Samples.always (Fetch.Resolved Samples.literalFalse)) =
  Some ({| Client.data := None; Client.error := Some Client.emptyError |},
        [Client.CallFetch "u" 0]).
Proof.
  destruct (falsy_payload_is_empty_response (Client.settings ∅) "u"
              (Samples.always (Fetch.Resolved Samples.literalFalse)) 4 0 None []
              Samples.literalFalse (Js.JBool false))
    as ((Hrun & _) & _);
    [vm_compute; discriminate | reflexivity | reflexivity | reflexivity
    | reflexivity |].
  exact Hrun.
Defined.

(** C1, as stated, fails: an exception that is neither an abort nor a
    failed fetch is classified ["unknown"], but with three retries left
    the call ends after the first attempt, without any sleep. *)
Lemma unknown_error_not_retried :
  let net := Samples.always (Fetch.Rejected Samples.unexpected) in
  Client.nameIs Samples.unexpected "AbortError" = false /\
  Js.instanceofTypeError Samples.unexpected
    && Js.includes (Js.message Samples.unexpected) "fetch" = false /\
  Client.type (Client.networkError (Client.settings ∅) Samples.unexpected) = "unknown" /\
  Z.of_nat 0 < Client.maxRetries (Client.settings ∅) /\
  Client.makeOpenFDARequest "u" ∅ net =
  Some ({| Client.data := None;
           Client.error :=
             Some (Client.networkError (Client.settings ∅) Samples.unexpected) |},
        [Client.CallFetch "u" 0]).
Proof. vm_compute. repeat split. Qed.

(** C1, amended: when the fetch of an attempt raises an exception that is
    neither an [AbortError] nor a [TypeError] instance whose message
    contains "fetch", the error is classified ["unknown"]; the request is
    retried after the back-off delay only when attempts remain and
    [isRetryableError] accepts the exception, which for such an exception
    means that its [name] is "TypeError" with a message containing
    "fetch", or that it carries a [status] in 500..599 or equal to 429;
    otherwise the call ends at that attempt with the unknown error. *)
Theorem unknown_error_classification (cfg : Client.Settings) (url : string)
    (net : Fetch.Network) (fuel attempt : nat)
    (lastError : option Client.ErrorRecord) (trace : list Client.Event)
    (error : Js.ErrorObject) :
  Z.of_nat attempt <= Client.maxRetries cfg ->
  net attempt = Fetch.Rejected error ->
  Client.nameIs error "AbortError" = false ->
  Js.instanceofTypeError error && Js.includes (Js.message error) "fetch" = false ->
  Client.type (Client.networkError cfg error) = "unknown" /\
  Client.isRetryableError error =
    (Client.nameIs error "TypeError" && Js.includes (Js.message error) "fetch")
    || Client.statusSatisfies error (fun s => (500 <=? s) && (s <=? 599))
    || Client.statusSatisfies error (fun s => s =? 429) /\
  Client.loop cfg url net (S fuel) attempt lastError trace =
    if (Z.of_nat attempt <? Client.maxRetries cfg) && Client.isRetryableError error
    then Client.loop cfg url net fuel (S attempt)
           (Some (Client.networkError cfg error))
           (trace ++ [Client.CallFetch url attempt;
                      Client.Sleep (Client.backoff cfg attempt)])
    else Some ({| Client.data := None;
                  Client.error := Some (Client.networkError cfg error) |},
               trace ++ [Client.CallFetch url attempt]).
Proof.
  intros Hle Hnet Habort Hfetch. split; [| split].
  - unfold Client.networkError. by rewrite Habort, Hfetch.
  - unfold Client.isRetryableError. rewrite Habort.
    destruct (Client.nameIs error "TypeError" && _); [reflexivity |].
    unfold Client.statusSatisfies.
    destruct (Js.status error) as [s |]; [| reflexivity].
    by destruct ((500 <=? s) && (s <=? 599)), (s =? 429).
  - rewrite loop_unfold. unfold Client.iteration. rewrite Hnet.
    destruct (Z.leb_spec (Z.of_nat attempt) (Client.maxRetries cfg)); [| lia].
    destruct ((Z.of_nat attempt <? Client.maxRetries cfg) && _); [| reflexivity].
    by rewrite <- app_assoc.
Qed.

Lemma unknown_error_classification_witness :
  Client.makeOpenFDARequest "u" ∅ (Samples.always (Fetch.Rejected Samples.unexpected)) =
  Some ({| Client.data := None;
           Client.error :=
             Some (Client.networkError (Client.settings ∅) Samples.unexpected) |},
        [Client.CallFetch "u" 0]).
Proof.
  destruct (unknown_error_classification (Client.settings ∅) "u"
              (Samples.always (Fetch.Rejected Samples.unexpected)) 4 0 None []
              Samples.unexpected)
    as (_ & _ & Hrun);
    [vm_compute; discriminate | reflexivity | reflexivity | reflexivity |].
  exact Hrun.
Defined.

(** ** Claims about the URL builder *)

Section BuilderProperties.

Import Builder.

Lemma build_unfold (this : OpenFDABuilder) (env : gmap string string) :
  build this env =
  if truthy (params this !! "context") && truthy (params this !! "search")
     && truthy (params this !! "limit")
  then Returned (url +:+ render (params this !! "context")
                     +:+ ".json?api_key=" +:+ renderEnv (env !! "OPENFDA_API_KEY")
                     +:+ "&search=" +:+ render (params this !! "search")
                     +:+ "&limit=" +:+ render (params this !! "limit"))
  else Thrown missingParameters.
Proof.
  unfold build.
  by destruct (truthy (params this !! "context")),
    (truthy (params this !! "search")), (truthy (params this !! "limit")).
Qed.

Lemma truthy_present (v : option Param) : truthy v = true -> is_Some v.
Proof. destruct v; [eauto | discriminate]. Qed.

End BuilderProperties.

(** C5, as stated, fails twice.  A builder holding all three parameters,
    with limit 0, does not build: the guard tests truthiness, not
    presence.  And the URL of a successful build has no slash between the
    base (which ends in one) and the context, so it is not the string
    <base>/<context>.json?... of the claim. *)
Lemma build_rejects_stored_zero_limit :
  let stored := Builder.limit (Some 0)
                  (Builder.search "x" (Builder.context Builder.label Builder.new)) in
  let valid := Builder.limit (Some 1)
                 (Builder.search "x" (Builder.context Builder.label Builder.new)) in
  let env : gmap string string := {[ "OPENFDA_API_KEY" := "K" ]} in
  (is_Some (Builder.params stored !! "context") /\
   is_Some (Builder.params stored !! "search") /\
   is_Some (Builder.params stored !! "limit") /\
   Builder.build stored env = Builder.Thrown Builder.missingParameters) /\
  (Builder.build valid env =
     Builder.Returned "https://api.fda.gov/drug/label.json?api_key=K&search=x&limit=1" /\
   Builder.build valid env <>
     Builder.Returned ("https://api.fda.gov/drug/" +:+ "/" +:+ "label" +:+
                       ".json?api_key=" +:+ "K" +:+ "&search=" +:+ "x" +:+
                       "&limit=" +:+ "1")).
Proof.
  vm_compute. repeat split; eauto; discriminate.
Qed.

(** C5, amended: [build()] fails with the missing-parameter error if any
    of context, search and limit is absent from the stored parameters or
    stored with a falsy value (the empty string, 0); otherwise it returns
    exactly <base><context>.json?api_key=<credential>&search=<search>&limit=<limit>
    with base "https://api.fda.gov/drug/" (no further slash before the
    context), the credential being read from the process environment at
    build time, rendered as "undefined" when it is not set. *)
Theorem build_characterisation (this : Builder.OpenFDABuilder)
    (env : gmap string string) :
  Builder.url = "https://api.fda.gov/drug/" /\
  Builder.build this env =
  match Builder.params this !! "context", Builder.params this !! "search",
        Builder.params this !! "limit" with
  | Some context, Some search, Some limit =>
      if Builder.truthy (Some context) && Builder.truthy (Some search)
         && Builder.truthy (Some limit)
      then Builder.Returned
             (Builder.url +:+ Builder.render (Some context)
                +:+ ".json?api_key="
                +:+ default "undefined" (env !! "OPENFDA_API_KEY")
                +:+ "&search=" +:+ Builder.render (Some search)
                +:+ "&limit=" +:+ Builder.render (Some limit))
      else Builder.Thrown Builder.missingParameters
  | _, _, _ => Builder.Thrown Builder.missingParameters
  end.
Proof.
  split; [reflexivity |]. rewrite build_unfold.
  destruct (Builder.params this !! "context") as [c |]; [| reflexivity].
  destruct (Builder.params this !! "search") as [q |];
    [| by rewrite andb_false_r].
  destruct (Builder.params this !! "limit") as [l |];
    [reflexivity | by rewrite andb_false_r].
Qed.

(** C8, as stated, fails: with the empty string set as search, context
    set and [limit()] called without argument, all three parameters are
    stored (limit as 1), yet [build()] throws, the empty search counting
    as missing. *)
Lemma empty_search_does_not_build :
  let builder :=
    Builder.limit None (Builder.search "" (Builder.context Builder.label Builder.new)) in
  Builder.params builder !! "context" = Some (Builder.Text "label") /\
  Builder.params builder !! "search" = Some (Builder.Text "") /\
  Builder.params builder !! "limit" = Some (Builder.Number 1) /\
  Builder.build builder {[ "OPENFDA_API_KEY" := "K" ]} =
  Builder.Thrown Builder.missingParameters.
Proof. repeat split; reflexivity. Qed.

(** C8, amended: a builder on which context and a non-empty search have
    been set and [limit()] has been called without argument builds, with
    limit = 1; the same builder without any call of [limit] fails at
    [build()]. *)
Theorem limit_default_and_required (c : Builder.ContextType) (query : string)
    (env : gmap string string) :
  query <> "" ->
  Builder.params
    (Builder.limit None (Builder.search query (Builder.context c Builder.new)))
    !! "limit" = Some (Builder.Number 1) /\
  Builder.build
    (Builder.limit None (Builder.search query (Builder.context c Builder.new))) env =
  Builder.Returned
    ("https://api.fda.gov/drug/" +:+ Builder.contextName c +:+ ".json?api_key="
       +:+ default "undefined" (env !! "OPENFDA_API_KEY")
       +:+ "&search=" +:+ query +:+ "&limit=1") /\
  Builder.build (Builder.search query (Builder.context c Builder.new)) env =
  Builder.Thrown Builder.missingParameters.
Proof.
  intros Hquery.
  assert (Hq : negb (String.eqb query "") = true).
  { apply negb_true_iff, String.eqb_neq, Hquery. }
  split; [reflexivity |]. split.
  - rewrite build_unfold. unfold Builder.limit, Builder.search, Builder.context.
    cbn [Builder.params].
    rewrite !lookup_insert_eq.
    rewrite (lookup_insert_ne _ "limit" "search"), lookup_insert_eq by done.
    rewrite (lookup_insert_ne _ "limit" "context"),
      (lookup_insert_ne _ "search" "context"), lookup_insert_eq by done.
    cbn [Builder.truthy Builder.render default]. rewrite Hq.
    by destruct c.
  - rewrite build_unfold. unfold Builder.search, Builder.context, Builder.new.
    cbn [Builder.params].
    rewrite (lookup_insert_ne _ "search" "limit"),
      (lookup_insert_ne _ "context" "limit"), lookup_empty by done.
    by rewrite andb_false_r.
Qed.

Lemma limit_default_and_required_witness :
  Builder.build
    (Builder.limit None
       (Builder.search "openfda.brand_name:Advil"
          (Builder.context Builder.label Builder.new)))
    {[ "OPENFDA_API_KEY" := "K" ]} =
  Builder.Returned
    "https://api.fda.gov/drug/label.json?api_key=K&search=openfda.brand_name:Advil&limit=1" /\
  Builder.build
    (Builder.search "openfda.brand_name:Advil"
       (Builder.context Builder.label Builder.new))
    {[ "OPENFDA_API_KEY" := "K" ]} =
  Builder.Thrown Builder.missingParameters.
Proof.
  destruct (limit_default_and_required Builder.label "openfda.brand_name:Advil"
              {[ "OPENFDA_API_KEY" := "K" ]})
    as (_ & Hbuilt & Hthrown); [discriminate |].
  split; [exact Hbuilt | exact Hthrown].
Defined.

(** ** Claims about the NDC normaliser *)

Section StringFacts.

Import NDC.

Lemma all_app (p : ascii -> bool) (a b : string) :
  all p (a +:+ b) = all p a && all p b.
Proof.
  induction a as [| c a IH]; simpl; [reflexivity |].
  by rewrite IH, andb_assoc.
Qed.

Lemma occurrences_app (c : ascii) (a b : string) :
  occurrences c (a +:+ b) = (occurrences c a + occurrences c b)%nat.
Proof.
  induction a as [| d a IH]; simpl; [reflexivity |].
  rewrite IH. lia.
Qed.

Lemma includes_dash (s : string) :
  Js.includes s "-" = (0 <? occurrences "-" s)%nat.
Proof.
  induction s as [| c s IH]; [reflexivity |].
  cbn [Js.includes occurrences String.prefix]. rewrite IH.
  destruct (ascii_dec "-" c) as [<- | Hne].
  - rewrite Ascii.eqb_refl. by destruct s.
  - destruct (Ascii.eqb_spec c "-") as [-> | _]; [contradiction | reflexivity].
Qed.

(** The segments of a split are one more than the separators. *)
Lemma split_length (sep : ascii) (s : string) :
  length (split sep s) = S (occurrences sep s).
Proof.
  induction s as [| c s IH]; [reflexivity |].
  cbn [split occurrences].
  destruct (Ascii.eqb c sep); simpl; [by rewrite IH |].
  destruct (split sep s); simpl in *; [discriminate | exact IH].
Qed.

Lemma digits_spec (n : nat) : forall s r,
  digits n s = Some r ->
  exists a, s = a +:+ r /\ all isDigit a = true /\ String.length a = n.
Proof.
  induction n as [| n IH]; intros s r Hd; simpl in Hd.
  - injection Hd as <-. by exists "".
  - destruct s as [| c s]; [discriminate |].
    destruct (isDigit c) eqn:Hc; [| discriminate].
    destruct (IH _ _ Hd) as (a & -> & Hall & Hlen).
    exists (String c a). simpl. by rewrite Hc, Hall, Hlen.
Qed.

Lemma digit_plain (c : ascii) :
  isDigit c = true -> plain c = true /\ Ascii.eqb c "-" = false.
Proof.
  intros Hd. split.
  - unfold isDigit, plain, isWhiteSpace, isLower in *.
    set (n := nat_of_ascii c) in *.
    apply andb_true_iff in Hd as [H1%Nat.leb_le H2%Nat.leb_le].
    apply andb_true_iff. split; apply negb_true_iff.
    + apply orb_false_iff. split.
      * apply andb_false_iff. right. apply Nat.leb_gt. lia.
      * apply Nat.eqb_neq. lia.
    + apply andb_false_iff. left. apply Nat.leb_gt. lia.
  - destruct (Ascii.eqb_spec c "-") as [-> | _]; [discriminate | reflexivity].
Qed.

Lemma all_digits_plain (a : string) :
  all isDigit a = true -> all plain a = true /\ occurrences "-" a = 0%nat.
Proof.
  induction a as [| c a IH]; simpl; [done |].
  intros [Hc Ha]%andb_true_iff.
  destruct (digit_plain c Hc) as [-> ->], (IH Ha) as [-> ->]. done.
Qed.

Lemma plain_trimStart (s : string) : all plain s = true -> trimStart s = s.
Proof.
  destruct s as [| c s]; simpl; [done |].
  unfold plain. intros [[Hw _]%andb_true_iff _]%andb_true_iff.
  apply negb_true_iff in Hw. by rewrite Hw.
Qed.

Lemma plain_trimEnd (s : string) : all plain s = true -> trimEnd s = s.
Proof.
  induction s as [| c s IH]; simpl; [done |].
  unfold plain at 1. intros [[Hw _]%andb_true_iff Hs]%andb_true_iff.
  apply negb_true_iff in Hw. rewrite (IH Hs), Hw. by destruct s.
Qed.

Lemma plain_toUpperCase (s : string) : all plain s = true -> toUpperCase s = s.
Proof.
  induction s as [| c s IH]; simpl; [done |].
  unfold plain at 1. intros [[_ Hl]%andb_true_iff Hs]%andb_true_iff.
  apply negb_true_iff in Hl. unfold upper. by rewrite Hl, (IH Hs).
Qed.

Lemma plain_clean (s : string) : all plain s = true -> clean s = s.
Proof.
  intros Hs. unfold clean, trim.
  by rewrite (plain_trimStart s Hs), (plain_trimEnd s Hs), (plain_toUpperCase s Hs).
Qed.

(** A string matching the product pattern is made of plain characters
    and holds exactly one dash. *)
Lemma pattern_shape (p : string) :
  testProductPattern p = true ->
  all plain p = true /\ occurrences "-" p = 1%nat.
Proof.
  unfold testProductPattern. intros Hp.
  destruct (digits 5 p) as [[| c rest] |] eqn:H5; try discriminate.
  apply andb_true_iff in Hp as [Hc Hp]. apply Ascii.eqb_eq in Hc as ->.
  destruct (digits 4 rest) as [[| ? ?] |] eqn:H4; try discriminate.
  destruct (digits_spec _ _ _ H5) as (a & -> & Ha & _).
  destruct (digits_spec _ _ _ H4) as (b & -> & Hb & _).
  destruct (all_digits_plain a Ha) as [Hpa Hoa], (all_digits_plain b Hb) as [Hpb Hob].
  rewrite all_app, occurrences_app. cbn [all occurrences].
  rewrite all_app, occurrences_app, Hpa, Hpb, Hoa, Hob. done.
Qed.

(** Normalising a well-formed product code gives it back, valid. *)
Lemma normalize_product (p : string) :
  testProductPattern p = true ->
  normalizeNDC p = {| productNDC := p; packageNDC := None; isValid := true |}.
Proof.
  intros Hp. destruct (pattern_shape p Hp) as [Hplain Hdash].
  unfold normalizeNDC. rewrite (plain_clean p Hplain), includes_dash, Hdash.
  pose proof (split_length "-" p) as Hlen. rewrite Hdash in Hlen.
  cbn [Nat.ltb Nat.leb].
  destruct (split "-" p) as [| ? [| ? [| ? ?]]]; try discriminate.
  unfold validated. by rewrite Hp.
Qed.

(** A result flagged valid carries a product code matching the pattern. *)
Lemma valid_product (ndc : string) :
  isValid (normalizeNDC ndc) = true ->
  testProductPattern (productNDC (normalizeNDC ndc)) = true.
Proof.
  unfold normalizeNDC.
  destruct (Js.includes (clean ndc) "-").
  - destruct (split "-" (clean ndc)) as [| ? [| ? [| ? [| ? ?]]]];
      simpl; done.
  - destruct (String.length (clean ndc) =? 11)%nat; [simpl; done |].
    destruct (String.length (clean ndc) =? 9)%nat; simpl; done.
Qed.

End StringFacts.

(** C2, as stated, fails: "123456789AB" has no dash and is neither nine
    nor eleven digits, so it is none of the four layouts of the claim;
    yet it is re-segmented by length, flagged valid, and given a package
    code. *)
Lemma eleven_characters_not_digits :
  let ndc := "123456789AB" in
  Js.includes (NDC.clean ndc) "-" = false /\
  NDC.all NDC.isDigit (NDC.clean ndc) = false /\
  NDC.normalizeNDC ndc =
  {| NDC.productNDC := "12345-6789";
     NDC.packageNDC := Some "12345-6789-AB";
     NDC.isValid := true |} /\
  NDC.normalizeNDC ndc <> NDC.unrecognised (NDC.clean ndc).
Proof. vm_compute. repeat split; discriminate. Qed.

(** C2, amended: the layouts are recognised by the number of dashes and
    the length of the trimmed, upper-cased input alone, whatever its
    characters.  When that cleaned input holds three or more dashes, or
    no dash and a length other than 9 and 11, the result has
    [isValid = false], [productNDC] equal to the cleaned input as it is,
    and [packageNDC = null]; and [packageNDC] is non-null exactly when the
    cleaned input holds two dashes (three segments) or holds no dash and
    has 11 characters. *)
Theorem unrecognised_layout (ndc : string) :
  ((3 <= NDC.occurrences "-" (NDC.clean ndc))%nat \/
   (NDC.occurrences "-" (NDC.clean ndc) = 0%nat /\
    String.length (NDC.clean ndc) <> 9%nat /\
    String.length (NDC.clean ndc) <> 11%nat) ->
   NDC.normalizeNDC ndc =
   {| NDC.productNDC := NDC.clean ndc;
      NDC.packageNDC := None;
      NDC.isValid := false |}) /\
  (NDC.packageNDC (NDC.normalizeNDC ndc) <> None <->
   NDC.occurrences "-" (NDC.clean ndc) = 2%nat \/
   (NDC.occurrences "-" (NDC.clean ndc) = 0%nat /\
    String.length (NDC.clean ndc) = 11%nat)).
Proof.
  unfold NDC.normalizeNDC. rewrite includes_dash.
  pose proof (split_length "-" (NDC.clean ndc)) as Hlen.
  destruct (NDC.occurrences "-" (NDC.clean ndc)) as [| [| [| d]]] eqn:Hd.
  - cbn [Nat.ltb Nat.leb].
    destruct (Nat.eqb_spec (String.length (NDC.clean ndc)) 11) as [H11 | H11].
    + split; [lia |]. simpl. split; [by right | done].
    + destruct (Nat.eqb_spec (String.length (NDC.clean ndc)) 9) as [H9 | H9].
      * split; [lia |]. simpl. split; [done | lia].
      * split; [done |]. simpl. split; [done | lia].
  - cbn [Nat.ltb Nat.leb].
    destruct (NDC.split "-" (NDC.clean ndc)) as [| ? [| ? [| ? ?]]]; try discriminate.
    split; [lia |]. simpl. split; [done | lia].
  - cbn [Nat.ltb Nat.leb].
    destruct (NDC.split "-" (NDC.clean ndc)) as [| ? [| ? [| ? [| ? ?]]]];
      try discriminate.
    split; [lia |]. simpl. split; [by left | done].
  - cbn [Nat.ltb Nat.leb].
    destruct (NDC.split "-" (NDC.clean ndc)) as [| ? [| ? [| ? [| ? ?]]]];
      try discriminate.
    split; [done |]. simpl. split; [done | lia].
Qed.

Lemma unrecognised_layout_witness :
  NDC.normalizeNDC " abc " =
  {| NDC.productNDC := "ABC"; NDC.packageNDC := None; NDC.isValid := false |}.
Proof.
  destruct (unrecognised_layout " abc ") as [Hother _].
  apply Hother. right. vm_compute. repeat split; discriminate.
Defined.

(** C9: for every 2-segment or 3-segment dashed input that is valid,
    normalising the product code of the result gives the same product
    code again (and flags it valid, without package code). *)
Theorem normalize_idempotent_on_product (ndc : string) :
  length (NDC.split "-" (NDC.clean ndc)) = 2%nat \/
  length (NDC.split "-" (NDC.clean ndc)) = 3%nat ->
  NDC.isValid (NDC.normalizeNDC ndc) = true ->
  NDC.productNDC (NDC.normalizeNDC (NDC.productNDC (NDC.normalizeNDC ndc))) =
  NDC.productNDC (NDC.normalizeNDC ndc) /\
  NDC.normalizeNDC (NDC.productNDC (NDC.normalizeNDC ndc)) =
  {| NDC.productNDC := NDC.productNDC (NDC.normalizeNDC ndc);
     NDC.packageNDC := None;
     NDC.isValid := true |}.
Proof.
  intros _ Hvalid.
  rewrite (normalize_product _ (valid_product ndc Hvalid)). done.
Qed.

Lemma normalize_idempotent_on_product_witness :
  NDC.productNDC (NDC.normalizeNDC (NDC.productNDC (NDC.normalizeNDC "12345-1234-01"))) =
  NDC.productNDC (NDC.normalizeNDC "12345-1234-01").
Proof.
  apply (normalize_idempotent_on_product "12345-1234-01");
    [right; reflexivity | reflexivity].
Defined.

(** ** The retry loop in closed form *)

Section RetryLoop.

Variables (cfg : Client.Settings) (url : string) (net : Fetch.Network).

(** One iteration, read through [retryable] and [resultOf]. *)
Lemma iteration_closed_form attempt lastError :
  Client.iteration cfg net attempt lastError =
  if (Z.of_nat attempt <? Client.maxRetries cfg) && Retry.retryable (net attempt)
  then (Client.error (Retry.resultOf cfg (net attempt)),
        Client.Continue (Client.backoff cfg attempt))
  else match Client.data (Retry.resultOf cfg (net attempt)) with
       | Some parsedData => (lastError, Client.Return parsedData)
       | None => (Client.error (Retry.resultOf cfg (net attempt)), Client.Break)
       end.
Proof.
  unfold Client.iteration, Retry.retryable, Retry.resultOf.
  destruct (net attempt) as [error | response].
  - by destruct (_ && _).
  - rewrite isRetryableError_statusOnly.
    destruct (Fetch.ok response); simpl.
    + rewrite andb_false_r.
      destruct (Fetch.json response) as [pe | v]; [reflexivity |].
      by destruct (Js.truthy v).
    + set (s := Fetch.status response).
      destruct ((400 <=? s) && (s <? 500) && negb (s =? 429)) eqn:Hclient.
      * apply andb_true_iff in Hclient as [[H1 H2]%andb_true_iff H3].
        apply Z.leb_le in H1. apply Z.ltb_lt in H2. apply negb_true_iff in H3.
        rewrite H3, orb_false_r.
        destruct (Z.leb_spec 500 s); [lia |].
        by rewrite andb_false_r.
      * by destruct (_ && _).
Qed.

Lemma resultOf_exclusive (o : Fetch.Outcome) :
  (exists parsedData,
      Retry.resultOf cfg o = {| Client.data := Some parsedData; Client.error := None |}) \/
  (exists e,
      Retry.resultOf cfg o = {| Client.data := None; Client.error := Some e |}).
Proof.
  unfold Retry.resultOf. destruct o as [error | response]; [eauto |].
  destruct (Fetch.ok response); [| eauto].
  destruct (Fetch.json response) as [pe | v]; [eauto |].
  destruct (Js.truthy v); eauto.
Qed.

(** The loop ends at the first attempt whose outcome is not retryable, or
    at attempt [maxRetries]; all attempts before were retryable. *)
Lemma loop_closed_form fuel : forall attempt lastError trace,
  Z.of_nat attempt <= Client.maxRetries cfg ->
  (Client.remaining cfg attempt < fuel)%nat ->
  exists k,
    (attempt <= k)%nat /\ Z.of_nat k <= Client.maxRetries cfg /\
    (forall i, (attempt <= i < k)%nat -> Retry.retryable (net i) = true) /\
    (Z.of_nat k = Client.maxRetries cfg \/ Retry.retryable (net k) = false) /\
    Client.loop cfg url net fuel attempt lastError trace =
    Some (Retry.resultOf cfg (net k),
          trace ++ Client.backoffTrace cfg url (k - attempt) attempt).
Proof.
  unfold Client.remaining.
  induction fuel as [| fuel IH]; intros attempt lastError trace Hle Hfuel; [lia |].
  rewrite loop_unfold, iteration_closed_form.
  destruct (Z.leb_spec (Z.of_nat attempt) (Client.maxRetries cfg)); [| lia].
  destruct ((Z.of_nat attempt <? Client.maxRetries cfg)
            && Retry.retryable (net attempt)) eqn:Hgo.
  - apply andb_true_iff in Hgo as [Hlt%Z.ltb_lt Hretry].
    destruct (IH (S attempt) (Client.error (Retry.resultOf cfg (net attempt)))
                ((trace ++ [Client.CallFetch url attempt])
                   ++ [Client.Sleep (Client.backoff cfg attempt)]))
      as (k & Hk & Hmax & Hbefore & Hstop & Hrun); [lia | lia |].
    exists k. repeat split; [lia | exact Hmax | | exact Hstop |].
    + intros i Hi. destruct (decide (i = attempt)) as [-> | Hne]; [exact Hretry |].
      apply Hbefore. lia.
    + rewrite Hrun. replace (k - attempt)%nat with (S (k - S attempt)) by lia.
      simpl. by rewrite <- !app_assoc.
  - exists attempt. rewrite Nat.sub_diag. simpl.
    repeat split; [lia | exact H | lia | |].
    + apply andb_false_iff in Hgo as [Hge%Z.ltb_ge | Hno]; [left; lia | by right].
    + destruct (resultOf_exclusive (net attempt)) as [[v ->] | [e ->]]; reflexivity.
Qed.

End RetryLoop.

(** A call ends at some attempt [k <= maxRetries]. *)
Lemma request_stops_somewhere (url : string) (config : gmap string Z)
    (net : Fetch.Network) :
  0 <= Client.maxRetries (Client.settings config) ->
  exists k,
    Z.of_nat k <= Client.maxRetries (Client.settings config) /\
    (forall i, (i < k)%nat -> Retry.retryable (net i) = true) /\
    (Z.of_nat k = Client.maxRetries (Client.settings config) \/
     Retry.retryable (net k) = false) /\
    Client.makeOpenFDARequest url config net =
    Some (Retry.resultOf (Client.settings config) (net k),
          Client.backoffTrace (Client.settings config) url k 0).
Proof.
  intros Hmax. unfold Client.makeOpenFDARequest.
  destruct (loop_closed_form (Client.settings config) url net
              (Client.enoughFuel (Client.settings config)) 0 None [])
    as (k & _ & Hk & Hbefore & Hstop & Hrun);
    [lia | apply enoughFuel_remaining |].
  exists k. repeat split; [exact Hk | | exact Hstop |].
  - intros i Hi. apply Hbefore. lia.
  - rewrite Hrun, Nat.sub_0_r. reflexivity.
Qed.

(** X1: whatever the network does, a call with [maxRetries >= 0] makes the
    attempts 0, 1, ..., k for some [k <= maxRetries], each but the last
    followed by its back-off sleep; the attempts before [k] all had a
    retryable outcome, attempt [k] is either not retryable or the last one
    allowed, and the returned object is the one of attempt [k] alone. *)
Theorem request_closed_form (url : string) (config : gmap string Z)
    (net : Fetch.Network) :
  0 <= Client.maxRetries (Client.settings config) ->
  exists k,
    Z.of_nat k <= Client.maxRetries (Client.settings config) /\
    (forall i, (i < k)%nat -> Retry.retryable (net i) = true) /\
    (Z.of_nat k = Client.maxRetries (Client.settings config) \/
     Retry.retryable (net k) = false) /\
    Client.makeOpenFDARequest url config net =
    Some (Retry.resultOf (Client.settings config) (net k),
          Client.backoffTrace (Client.settings config) url k 0).
Proof.
  intros Hmax.
  destruct (request_stops_somewhere url config net Hmax)
    as (k & Hk & Hbefore & Hstop & Hrun).
  exists k. auto.
Qed.

Lemma request_closed_form_witness :
  exists k,
    Client.makeOpenFDARequest "u" ∅ Samples.always503 =
    Some (Retry.resultOf (Client.settings ∅) (Samples.always503 k),
          Client.backoffTrace (Client.settings ∅) "u" k 0).
Proof.
  destruct (request_closed_form "u" ∅ Samples.always503)
    as (k & _ & _ & _ & Hrun); [vm_compute; discriminate |].
  exists k. exact Hrun.
Defined.

(** The attempt at which a call ends is determined: it is the first one
    that is not retryable, or attempt [maxRetries]. *)
Lemma request_ends_at (url : string) (config : gmap string Z)
    (net : Fetch.Network) (k : nat) :
  Z.of_nat k <= Client.maxRetries (Client.settings config) ->
  (forall i, (i < k)%nat -> Retry.retryable (net i) = true) ->
  Z.of_nat k = Client.maxRetries (Client.settings config) \/
  Retry.retryable (net k) = false ->
  Client.makeOpenFDARequest url config net =
  Some (Retry.resultOf (Client.settings config) (net k),
        Client.backoffTrace (Client.settings config) url k 0).
Proof.
  intros Hk Hbefore Hstop.
  destruct (request_stops_somewhere url config net)
    as (j & Hj & Hbefore' & Hstop' & Hrun); [lia |].
  destruct (lt_eq_lt_dec j k) as [[Hlt | ->] | Hgt]; [| exact Hrun |].
  - destruct Hstop' as [Heq | Hno]; [lia |].
    rewrite (Hbefore j Hlt) in Hno. discriminate.
  - destruct Hstop as [Heq | Hno]; [lia |].
    rewrite (Hbefore' k Hgt) in Hno. discriminate.
Qed.

(** X2: recovery.  When the attempts before [k] all fail in a retryable
    way and attempt [k <= maxRetries] is answered by a 2xx response with a
    truthy payload, the call returns that payload with [error = null],
    after exactly the attempts 0..k and the [k] back-off sleeps between
    them; nothing is attempted after the success. *)
Theorem success_after_retries (url : string) (config : gmap string Z)
    (net : Fetch.Network) (k : nat) (response : Fetch.Response)
    (parsedData : Js.JsonValue) :
  Z.of_nat k <= Client.maxRetries (Client.settings config) ->
  (forall i, (i < k)%nat -> Retry.retryable (net i) = true) ->
  net k = Fetch.Resolved response ->
  Fetch.ok response = true ->
  Fetch.json response = Fetch.JsonParsed parsedData ->
  Js.truthy parsedData = true ->
  Client.makeOpenFDARequest url config net =
  Some ({| Client.data := Some parsedData; Client.error := None |},
        Client.backoffTrace (Client.settings config) url k 0).
Proof.
  intros Hk Hbefore Hnet Hok Hjson Htruthy.
  rewrite (request_ends_at url config net k Hk Hbefore).
  - unfold Retry.resultOf. by rewrite Hnet, Hok, Hjson, Htruthy.
  - right. unfold Retry.retryable. by rewrite Hnet, Hok.
Qed.

Lemma success_after_retries_witness :
  Client.makeOpenFDARequest "u" ∅ Scenarios.recovers =
  Some ({| Client.data := Some (Js.JObject []); Client.error := None |},
        [Client.CallFetch "u" 0; Client.Sleep 1000;
         Client.CallFetch "u" 1; Client.Sleep 2000;
         Client.CallFetch "u" 2]).
Proof.
  refine (success_after_retries "u" ∅ Scenarios.recovers 2 Scenarios.payload
            (Js.JObject []) _ _ eq_refl eq_refl eq_refl eq_refl).
  - vm_compute. discriminate.
  - intros [| [| i]] Hi; [reflexivity | reflexivity | lia].
Defined.

(** X3: exhaustion.  With [maxRetries = n], when the attempts 0..n all fail
    in a retryable way (time-outs, failed connections, statuses 429 and
    500..599, in any mix), all [n + 1] attempts are made with the [n]
    back-off sleeps between them, and the call returns [data = null] with
    the error of the last attempt only. *)
Theorem retryable_failures_exhaust_budget (url : string) (config : gmap string Z)
    (net : Fetch.Network) (n : nat) :
  Client.maxRetries (Client.settings config) = Z.of_nat n ->
  (forall i, (i <= n)%nat -> Retry.retryable (net i) = true) ->
  Client.makeOpenFDARequest url config net =
  Some (Retry.resultOf (Client.settings config) (net n),
        Client.backoffTrace (Client.settings config) url n 0) /\
  Client.attempts (Client.backoffTrace (Client.settings config) url n 0) = S n /\
  Client.data (Retry.resultOf (Client.settings config) (net n)) = None /\
  Client.error (Retry.resultOf (Client.settings config) (net n)) =
  Some (match net n with
        | Fetch.Rejected error => Client.networkError (Client.settings config) error
        | Fetch.Resolved response => Client.httpError response
        end).
Proof.
  intros Hmax Hall. split; [| split].
  - apply request_ends_at; [lia | intros i Hi; apply Hall; lia | left; lia].
  - apply attempts_backoffTrace.
  - specialize (Hall n (Nat.le_refl n)).
    unfold Retry.retryable, Retry.resultOf in *.
    destruct (net n) as [error | response]; [done |].
    by destruct (Fetch.ok response).
Qed.

Lemma retryable_failures_exhaust_budget_witness :
  Client.makeOpenFDARequest "u" {[ "maxRetries" := 1; "timeout" := 50 ]}
    Scenarios.alwaysTimeout =
  Some ({| Client.data := None;
           Client.error :=
             Some {| Client.type := "timeout";
                     Client.message := "Request timeout after 50ms";
                     Client.status := None;
                     Client.details := Some (Client.DetailsObject Fetch.AbortError) |} |},
        [Client.CallFetch "u" 0; Client.Sleep 1000; Client.CallFetch "u" 1]).
Proof.
  destruct (retryable_failures_exhaust_budget "u"
              {[ "maxRetries" := 1; "timeout" := 50 ]}
              Scenarios.alwaysTimeout 1)
    as (Hrun & _); [reflexivity | intros i _; reflexivity |].
  exact Hrun.
Defined.

Lemma totalSleep_backoffTrace (cfg : Client.Settings) (url : string) (k : nat) :
  forall attempt,
  Retry.totalSleep (Client.backoffTrace cfg url k attempt) =
  Client.retryDelay cfg * (2 ^ Z.of_nat (attempt + k) - 2 ^ Z.of_nat attempt).
Proof.
  unfold Retry.totalSleep.
  induction k as [| k IH]; intros attempt.
  - simpl. rewrite Nat.add_0_r. change (Client.sleeps _) with (@nil Z). simpl. lia.
  - simpl.
    change (Client.sleeps (?e :: Client.Sleep ?d :: ?t)) with (d :: Client.sleeps t).
    simpl. rewrite IH. unfold Client.backoff.
    replace (Z.of_nat (S attempt)) with (Z.of_nat attempt + 1) by lia.
    replace (Z.of_nat (S attempt + k)) with (Z.of_nat (attempt + S k)) by lia.
    rewrite Z.pow_add_r by lia. lia.
Qed.

(** X4: the time a call spends sleeping.  With [maxRetries >= 0] and
    [retryDelay >= 0], a run of [m] fetches has slept
    [retryDelay * (2^(m-1) - 1)] milliseconds in total, which is at most
    [retryDelay * (2^maxRetries - 1)]; a run of one fetch has not slept. *)
Theorem total_backoff_bounded (url : string) (config : gmap string Z)
    (net : Fetch.Network) :
  0 <= Client.maxRetries (Client.settings config) ->
  0 <= Client.retryDelay (Client.settings config) ->
  exists r trace,
    Client.makeOpenFDARequest url config net = Some (r, trace) /\
    (1 <= Client.attempts trace)%nat /\
    Retry.totalSleep trace =
      Client.retryDelay (Client.settings config)
      * (2 ^ Z.of_nat (Client.attempts trace - 1) - 1) /\
    0 <= Retry.totalSleep trace
      <= Client.retryDelay (Client.settings config)
         * (2 ^ Client.maxRetries (Client.settings config) - 1).
Proof.
  intros Hmax Hdelay.
  destruct (request_stops_somewhere url config net Hmax) as (k & Hk & _ & _ & Hrun).
  eexists _, _. split; [exact Hrun |].
  rewrite attempts_backoffTrace, totalSleep_backoffTrace.
  replace (S k - 1)%nat with k by lia.
  change (0 + k)%nat with k. change (2 ^ Z.of_nat 0) with 1.
  split; [lia |]. split; [reflexivity |].
  assert (1 <= 2 ^ Z.of_nat k) by (apply Z.pow_le_mono_r with (b := 0); lia).
  assert (2 ^ Z.of_nat k <= 2 ^ Client.maxRetries (Client.settings config))
    by (apply Z.pow_le_mono_r; lia).
  split; nia.
Qed.

Lemma total_backoff_bounded_witness :
  exists r trace,
    Client.makeOpenFDARequest "u" ∅ Samples.always503 = Some (r, trace) /\
    0 <= Retry.totalSleep trace <= 7000.
Proof.
  destruct (total_backoff_bounded "u" ∅ Samples.always503)
    as (r & trace & Hrun & _ & _ & Hbound);
    [vm_compute; discriminate | vm_compute; discriminate |].
  exists r, trace. split; [exact Hrun | exact Hbound].
Defined.

(** X5: [maxRetries] is not validated.  With a negative [maxRetries] the
    loop body never runs: no request is made and the returned object has
    neither data nor error. *)
Theorem negative_maxRetries_no_request (url : string) (config : gmap string Z)
    (net : Fetch.Network) :
  Client.maxRetries (Client.settings config) < 0 ->
  Client.makeOpenFDARequest url config net =
  Some ({| Client.data := None; Client.error := None |}, []).
Proof.
  intros Hneg. unfold Client.makeOpenFDARequest, Client.enoughFuel.
  rewrite loop_unfold.
  by destruct (Z.leb_spec (Z.of_nat 0) (Client.maxRetries (Client.settings config)));
    [lia |].
Qed.

Lemma negative_maxRetries_no_request_witness :
  Client.makeOpenFDARequest "u" {[ "maxRetries" := -1 ]} Samples.always503 =
  Some ({| Client.data := None; Client.error := None |}, []).
Proof.
  apply (negative_maxRetries_no_request "u" {[ "maxRetries" := -1 ]} Samples.always503).
  reflexivity.
Defined.

(** X6: the two status tests of the HTTP-error path agree.  For a response
    outside 200..299 the iteration records the ["http"] error and goes on
    exactly when attempts remain and [isRetryableError({ status })] holds;
    the separate guard on 4xx statuses never decides otherwise. *)
Theorem http_retry_decided_by_isRetryableError (cfg : Client.Settings)
    (net : Fetch.Network) (attempt : nat) (lastError : option Client.ErrorRecord)
    (response : Fetch.Response) :
  net attempt = Fetch.Resolved response ->
  Fetch.ok response = false ->
  Client.iteration cfg net attempt lastError =
  (Some (Client.httpError response),
   if (Z.of_nat attempt <? Client.maxRetries cfg)
      && Client.isRetryableError (Client.statusOnly (Fetch.status response))
   then Client.Continue (Client.backoff cfg attempt)
   else Client.Break).
Proof.
  intros Hnet Hok.
  rewrite iteration_closed_form. unfold Retry.retryable, Retry.resultOf.
  rewrite Hnet, Hok, isRetryableError_statusOnly. simpl.
  by destruct (_ && _).
Qed.

Lemma http_retry_decided_by_isRetryableError_witness :
  Client.iteration (Client.settings ∅) (Samples.always (Fetch.Resolved Samples.notFound))
    0 None =
  (Some (Client.httpError Samples.notFound), Client.Break).
Proof.
  exact (http_retry_decided_by_isRetryableError (Client.settings ∅)
           (Samples.always (Fetch.Resolved Samples.notFound)) 0 None Samples.notFound
           eq_refl eq_refl).
Defined.

(** X7: for an exception without a [status] property whose [name] is
    "TypeError" exactly when it is a [TypeError] instance, the retry test
    and the classification agree: [isRetryableError] accepts it if and
    only if it is classified ["timeout"] or ["network"], not ["unknown"]. *)
Theorem retryable_iff_not_unknown (cfg : Client.Settings) (error : Js.ErrorObject) :
  Js.status error = None ->
  Client.nameIs error "TypeError" = Js.instanceofTypeError error ->
  Client.isRetryableError error =
  negb (String.eqb (Client.type (Client.networkError cfg error)) "unknown") /\
  (Client.isRetryableError error = true <->
   Client.type (Client.networkError cfg error) = "timeout" \/
   Client.type (Client.networkError cfg error) = "network").
Proof.
  intros Hstatus Hname.
  unfold Client.isRetryableError, Client.networkError, Client.statusSatisfies.
  rewrite Hstatus, Hname.
  destruct (Client.nameIs error "AbortError").
  - destruct (_ && _); simpl; split; try reflexivity; split; auto.
  - destruct (Js.instanceofTypeError error && _); simpl; split; try reflexivity.
    + split; auto.
    + split; [discriminate | intros [? | ?]; discriminate].
Qed.

Lemma retryable_iff_not_unknown_witness :
  Client.isRetryableError Fetch.fetchFailed = true /\
  Client.isRetryableError Samples.unexpected = false.
Proof.
  split.
  - apply (retryable_iff_not_unknown (Client.settings ∅) Fetch.fetchFailed);
      [reflexivity | reflexivity | right; reflexivity].
  - destruct (retryable_iff_not_unknown (Client.settings ∅) Samples.unexpected)
      as [Heq _]; [reflexivity | reflexivity |].
    rewrite Heq. reflexivity.
Defined.

(** ** More about the NDC normaliser *)

Section MoreStringFacts.

Import NDC.

Lemma append_assoc (a b c : string) : (a +:+ b) +:+ c = a +:+ (b +:+ c).
Proof.
  induction a as [| x a IH]; [reflexivity |].
  change (String x ((a +:+ b) +:+ c) = String x (a +:+ (b +:+ c))). by rewrite IH.
Qed.

Lemma append_nil_r (a : string) : a +:+ "" = a.
Proof.
  induction a as [| x a IH]; [reflexivity |].
  change (String x (a +:+ "") = String x a). by rewrite IH.
Qed.

Lemma prefix_append (a b : string) : String.prefix a (a +:+ b) = true.
Proof.
  induction a as [| x a IH]; [by destruct b |].
  change (String.prefix (String x a) (String x (a +:+ b)) = true). simpl.
  destruct (ascii_dec x x); [exact IH | contradiction].
Qed.

Lemma split_no_separator (sep : ascii) (a : string) :
  occurrences sep a = 0%nat -> split sep a = [a].
Proof.
  induction a as [| x a IH]; simpl; [reflexivity |].
  destruct (Ascii.eqb x sep); [discriminate |].
  intros Ha. by rewrite (IH Ha).
Qed.

Lemma split_at_separator (sep : ascii) (a r : string) :
  occurrences sep a = 0%nat ->
  split sep (a +:+ String sep r) = a :: split sep r.
Proof.
  induction a as [| x a IH]; simpl.
  - by rewrite Ascii.eqb_refl.
  - destruct (Ascii.eqb x sep); [discriminate |].
    intros Ha. by rewrite (IH Ha).
Qed.

(** Joining the segments of a split gives the string back. *)
Lemma split_first (sep : ascii) : forall s p q rest,
  split sep s = p :: q :: rest ->
  exists s', s = p +:+ String sep s' /\ split sep s' = q :: rest.
Proof.
  induction s as [| x s IH]; intros p q rest Hs; simpl in Hs; [discriminate |].
  destruct (Ascii.eqb_spec x sep) as [-> | _].
  - injection Hs as <- Hs. by exists s.
  - destruct (split sep s) as [| first others] eqn:Hsplit; [discriminate |].
    injection Hs as <- ->.
    destruct (IH _ _ _ eq_refl) as (s' & -> & Hs'). by exists s'.
Qed.

Lemma split_only (sep : ascii) : forall s p, split sep s = [p] -> s = p.
Proof.
  induction s as [| x s IH]; intros p Hs; simpl in Hs; [congruence |].
  destruct (Ascii.eqb x sep).
  - pose proof (split_length sep s) as Hlen. destruct (split sep s); discriminate.
  - pose proof (split_length sep s) as Hlen.
    destruct (split sep s) as [| first others] eqn:Hsplit; [discriminate |].
    injection Hs as <- ->. by rewrite (IH _ eq_refl).
Qed.

Lemma digits_append (a r : string) :
  all isDigit a = true -> digits (String.length a) (a +:+ r) = Some r.
Proof.
  induction a as [| x a IH]; simpl; [reflexivity |].
  intros [-> Ha]%andb_true_iff. exact (IH Ha).
Qed.

Lemma digits_exact (b : string) :
  all isDigit b = true -> digits (String.length b) b = Some "".
Proof.
  induction b as [| x b IH]; simpl; [reflexivity |].
  intros [-> Hb]%andb_true_iff. exact (IH Hb).
Qed.

Lemma product_pattern (a b : string) :
  all isDigit a = true -> String.length a = 5%nat ->
  all isDigit b = true -> String.length b = 4%nat ->
  testProductPattern (a +:+ String "-" b) = true.
Proof.
  intros Ha La Hb Lb. unfold testProductPattern.
  rewrite <- La, (digits_append a _ Ha), Ascii.eqb_refl.
  by rewrite <- Lb, (digits_exact b Hb).
Qed.

Lemma substring_parts (a b c : string) :
  String.length a = 5%nat -> String.length b = 4%nat ->
  substring (a +:+ b +:+ c) 0 5 = a /\
  substring (a +:+ b +:+ c) 5 9 = b /\
  (String.length c = 2%nat ->
   substring (a +:+ b +:+ c) 9 11 = c /\
   String.length (a +:+ b +:+ c) = 11%nat) /\
  (c = "" -> String.length (a +:+ b +:+ c) = 9%nat).
Proof.
  intros La Lb.
  do 6 (destruct a as [| ? a]; try discriminate).
  do 5 (destruct b as [| ? b]; try discriminate).
  split; [| split; [| split]].
  - reflexivity.
  - by destruct c.
  - intros Lc. do 3 (destruct c as [| ? c]; try discriminate). by split.
  - intros ->. reflexivity.
Qed.

Lemma occurrences_digits_dash (a b : string) :
  all isDigit a = true -> all isDigit b = true ->
  all plain (a +:+ String "-" b) = true /\
  occurrences "-" (a +:+ String "-" b) = 1%nat.
Proof.
  intros Ha Hb.
  destruct (all_digits_plain a Ha) as [Hpa Hoa], (all_digits_plain b Hb) as [Hpb Hob].
  rewrite all_app, occurrences_app. simpl. by rewrite Hpa, Hpb, Hoa, Hob.
Qed.

End MoreStringFacts.

(** X8: an 11-digit package code, written with or without dashes,
    normalises to the same result: for digit strings [a] (5 digits), [b]
    (4 digits) and [c] (2 digits), both [abc] and [a-b-c] give the valid
    result with product code [a-b] and package code [a-b-c]. *)
Theorem package_code_dashed_or_not (a b c : string) :
  NDC.all NDC.isDigit a = true -> String.length a = 5%nat ->
  NDC.all NDC.isDigit b = true -> String.length b = 4%nat ->
  NDC.all NDC.isDigit c = true -> String.length c = 2%nat ->
  NDC.normalizeNDC (a +:+ b +:+ c) =
    {| NDC.productNDC := a +:+ "-" +:+ b;
       NDC.packageNDC := Some (a +:+ "-" +:+ b +:+ "-" +:+ c);
       NDC.isValid := true |} /\
  NDC.normalizeNDC (a +:+ "-" +:+ b +:+ "-" +:+ c) =
    {| NDC.productNDC := a +:+ "-" +:+ b;
       NDC.packageNDC := Some (a +:+ "-" +:+ b +:+ "-" +:+ c);
       NDC.isValid := true |}.
Proof.
  intros Ha La Hb Lb Hc Lc.
  destruct (all_digits_plain a Ha) as [Hpa Hoa], (all_digits_plain b Hb) as [Hpb Hob],
    (all_digits_plain c Hc) as [Hpc Hoc].
  pose proof (product_pattern a b Ha La Hb Lb) as Hpattern.
  change (a +:+ String "-" b) with (a +:+ "-" +:+ b) in Hpattern.
  destruct (substring_parts a b c La Lb) as (S05 & S59 & Srest & _).
  destruct (Srest Lc) as [S911 Hlen].
  split.
  - unfold NDC.normalizeNDC.
    rewrite plain_clean by (by rewrite !all_app, Hpa, Hpb, Hpc).
    rewrite includes_dash, !occurrences_app, Hoa, Hob, Hoc.
    cbn [Nat.add Nat.ltb Nat.leb]. rewrite Hlen, S05, S59, S911.
    cbn [Nat.eqb]. unfold NDC.validated. by rewrite Hpattern.
  - unfold NDC.normalizeNDC.
    rewrite plain_clean by (by rewrite !all_app, Hpa, Hpb, Hpc).
    rewrite includes_dash, !occurrences_app, Hoa, Hob, Hoc.
    change (NDC.occurrences "-" "-") with 1%nat. cbn [Nat.add Nat.ltb Nat.leb].
    change (NDC.split "-" (a +:+ "-" +:+ b +:+ "-" +:+ c))
      with (NDC.split "-" (a +:+ String "-" (b +:+ String "-" c))).
    rewrite (split_at_separator "-" a _ Hoa), (split_at_separator "-" b _ Hob),
      (split_no_separator "-" c Hoc).
    unfold NDC.validated. by rewrite Hpattern.
Qed.

Lemma package_code_dashed_or_not_witness :
  NDC.normalizeNDC "12345678901" = NDC.normalizeNDC "12345-6789-01".
Proof.
  destruct (package_code_dashed_or_not "12345" "6789" "01"
              eq_refl eq_refl eq_refl eq_refl eq_refl eq_refl) as [Hplain Hdashed].
  exact (eq_trans Hplain (eq_sym Hdashed)).
Defined.

(** X9: a 9-digit product code, written with or without the dash,
    normalises to the same result: for digit strings [a] (5 digits) and
    [b] (4 digits), both [ab] and [a-b] give the valid result with product
    code [a-b] and no package code. *)
Theorem product_code_dashed_or_not (a b : string) :
  NDC.all NDC.isDigit a = true -> String.length a = 5%nat ->
  NDC.all NDC.isDigit b = true -> String.length b = 4%nat ->
  NDC.normalizeNDC (a +:+ b) =
    {| NDC.productNDC := a +:+ "-" +:+ b; NDC.packageNDC := None; NDC.isValid := true |} /\
  NDC.normalizeNDC (a +:+ "-" +:+ b) =
    {| NDC.productNDC := a +:+ "-" +:+ b; NDC.packageNDC := None; NDC.isValid := true |}.
Proof.
  intros Ha La Hb Lb.
  destruct (all_digits_plain a Ha) as [Hpa Hoa], (all_digits_plain b Hb) as [Hpb Hob].
  pose proof (product_pattern a b Ha La Hb Lb) as Hpattern.
  change (a +:+ String "-" b) with (a +:+ "-" +:+ b) in Hpattern.
  destruct (substring_parts a b "" La Lb) as (S05 & S59 & _ & Hlen).
  specialize (Hlen eq_refl).
  rewrite (append_nil_r b) in *.
  split.
  - unfold NDC.normalizeNDC.
    rewrite plain_clean by (by rewrite !all_app, Hpa, Hpb).
    rewrite includes_dash, !occurrences_app, Hoa, Hob.
    cbn [Nat.add Nat.ltb Nat.leb]. rewrite Hlen, S05, S59.
    cbn [Nat.eqb]. unfold NDC.validated. by rewrite Hpattern.
  - exact (normalize_product _ Hpattern).
Qed.

Lemma product_code_dashed_or_not_witness :
  NDC.normalizeNDC "123451234" = NDC.normalizeNDC "12345-1234".
Proof.
  destruct (product_code_dashed_or_not "12345" "1234"
              eq_refl eq_refl eq_refl eq_refl) as [Hplain Hdashed].
  exact (eq_trans Hplain (eq_sym Hdashed)).
Defined.

Lemma package_suffix (ndc package : string) :
  NDC.packageNDC (NDC.normalizeNDC ndc) = Some package ->
  exists suffix, package = NDC.productNDC (NDC.normalizeNDC ndc) +:+ "-" +:+ suffix.
Proof.
  unfold NDC.normalizeNDC.
  destruct (Js.includes (NDC.clean ndc) "-").
  - destruct (NDC.split "-" (NDC.clean ndc)) as [| p0 [| p1 [| p2 [| ? ?]]]] eqn:Hsplit;
      simpl; try discriminate.
    intros [= <-].
    destruct (split_first _ _ _ _ _ Hsplit) as (s1 & Hclean & Hs1).
    destruct (split_first _ _ _ _ _ Hs1) as (s2 & -> & Hs2).
    apply split_only in Hs2 as ->.
    exists p2. rewrite Hclean. by rewrite !append_assoc.
  - destruct (String.length (NDC.clean ndc) =? 11)%nat; simpl.
    + intros [= <-]. eexists. by rewrite !append_assoc.
    + destruct (String.length (NDC.clean ndc) =? 9)%nat; simpl; discriminate.
Qed.

Lemma package_prefix (ndc package : string) :
  NDC.packageNDC (NDC.normalizeNDC ndc) = Some package ->
  String.prefix (NDC.productNDC (NDC.normalizeNDC ndc)) package = true /\
  package <> "".
Proof.
  intros [suffix ->]%package_suffix. split; [apply prefix_append |].
  destruct (NDC.productNDC (NDC.normalizeNDC ndc)); discriminate.
Qed.

(** X10: whenever a package code is returned, it is the returned
    product code followed by a dash and a suffix; in particular it starts
    with the product code and is not empty. *)
Theorem package_extends_product (ndc package : string) :
  NDC.packageNDC (NDC.normalizeNDC ndc) = Some package ->
  (exists suffix,
      package = NDC.productNDC (NDC.normalizeNDC ndc) +:+ "-" +:+ suffix) /\
  String.prefix (NDC.productNDC (NDC.normalizeNDC ndc)) package = true /\
  package <> "".
Proof.
  intros Hpackage. split; [by apply package_suffix | by apply package_prefix].
Qed.

Lemma package_extends_product_witness :
  String.prefix (NDC.productNDC (NDC.normalizeNDC "12345678901"))
    "12345-6789-01" = true.
Proof.
  apply (package_extends_product "12345678901" "12345-6789-01"). reflexivity.
Defined.

(** X11: the validity flag is, for every input, the pattern test of the
    returned product code; the two early returns, which set it to [false]
    without testing, never return a product code matching the pattern. *)
Theorem isValid_is_pattern_test (ndc : string) :
  NDC.isValid (NDC.normalizeNDC ndc) =
  NDC.testProductPattern (NDC.productNDC (NDC.normalizeNDC ndc)).
Proof.
  unfold NDC.normalizeNDC. rewrite includes_dash.
  pose proof (split_length "-" (NDC.clean ndc)) as Hlen.
  destruct (NDC.testProductPattern (NDC.clean ndc)) eqn:Hclean.
  - destruct (pattern_shape _ Hclean) as [_ Hone]. rewrite Hone in *.
    cbn [Nat.ltb Nat.leb].
    by destruct (NDC.split "-" (NDC.clean ndc)) as [| ? [| ? [| ? ?]]].
  - destruct (0 <? NDC.occurrences "-" (NDC.clean ndc))%nat.
    + destruct (NDC.split "-" (NDC.clean ndc)) as [| ? [| ? [| ? [| ? ?]]]];
        simpl; by rewrite ?Hclean.
    + destruct (String.length (NDC.clean ndc) =? 11)%nat; [reflexivity |].
      destruct (String.length (NDC.clean ndc) =? 9)%nat; simpl; by rewrite ?Hclean.
Qed.

Section Cleaning.

Import NDC.

Lemma upper_facts (c : ascii) :
  isLower (upper c) = false /\ isWhiteSpace (upper c) = isWhiteSpace c.
Proof. destruct c as [[] [] [] [] [] [] [] []]; split; reflexivity. Qed.

Lemma toUpperCase_idempotent (s : string) :
  toUpperCase (toUpperCase s) = toUpperCase s.
Proof.
  induction s as [| c s IH]; simpl; [reflexivity |].
  rewrite IH. unfold upper at 1.
  by destruct (upper_facts c) as [-> _].
Qed.

Lemma trimStart_toUpperCase (s : string) :
  trimStart (toUpperCase s) = toUpperCase (trimStart s).
Proof.
  induction s as [| c s IH]; simpl; [reflexivity |].
  destruct (upper_facts c) as [_ ->].
  by destruct (isWhiteSpace c).
Qed.

Lemma trimEnd_toUpperCase (s : string) :
  trimEnd (toUpperCase s) = toUpperCase (trimEnd s).
Proof.
  induction s as [| c s IH]; simpl; [reflexivity |].
  rewrite IH. destruct (upper_facts c) as [_ Hws].
  destruct (trimEnd s); simpl; [| reflexivity].
  rewrite Hws. by destruct (isWhiteSpace c).
Qed.

Lemma trimEnd_idempotent (s : string) : trimEnd (trimEnd s) = trimEnd s.
Proof.
  induction s as [| c s IH]; simpl; [reflexivity |].
  destruct (trimEnd s) as [| d t] eqn:Ht.
  - destruct (isWhiteSpace c) eqn:Hc; simpl; [reflexivity | by rewrite Hc].
  - change (trimEnd (String c (String d t))) with
      (match trimEnd (String d t) with
       | EmptyString => if isWhiteSpace c then EmptyString else String c EmptyString
       | rest' => String c rest'
       end).
    by rewrite IH.
Qed.

(** Trimming the end keeps a string free of leading white space. *)
Lemma trimStart_trimEnd (s : string) :
  trimStart (trimEnd (trimStart s)) = trimEnd (trimStart s).
Proof.
  induction s as [| c s IH]; simpl; [reflexivity |].
  destruct (isWhiteSpace c) eqn:Hc; [exact IH |].
  simpl. destruct (trimEnd s); simpl; rewrite ?Hc; simpl; by rewrite ?Hc.
Qed.

Lemma trim_idempotent (s : string) : trim (trim s) = trim s.
Proof. unfold trim. by rewrite trimStart_trimEnd, trimEnd_idempotent. Qed.

Lemma trim_toUpperCase (s : string) : trim (toUpperCase s) = toUpperCase (trim s).
Proof. unfold trim. by rewrite trimStart_toUpperCase, trimEnd_toUpperCase. Qed.

Lemma clean_trim (s : string) : clean (trim s) = clean s.
Proof. unfold clean. by rewrite trim_idempotent. Qed.

Lemma clean_toUpperCase (s : string) : clean (toUpperCase s) = clean s.
Proof. unfold clean. by rewrite trim_toUpperCase, toUpperCase_idempotent. Qed.

Lemma clean_idempotent (s : string) : clean (clean s) = clean s.
Proof. unfold clean at 2. by rewrite clean_toUpperCase, clean_trim. Qed.

(** The result depends on the input through its cleaned form only. *)
Lemma normalize_depends_on_clean (s t : string) :
  clean s = clean t -> normalizeNDC s = normalizeNDC t.
Proof. intros Heq. unfold normalizeNDC. by rewrite Heq. Qed.

End Cleaning.

(** X12: the normaliser ignores surrounding white space and letter case:
    trimming the input, upper-casing it, or cleaning it (both) beforehand
    does not change the result; cleaning twice is cleaning once. *)
Theorem normalize_ignores_case_and_padding (ndc : string) :
  NDC.normalizeNDC (NDC.trim ndc) = NDC.normalizeNDC ndc /\
  NDC.normalizeNDC (NDC.toUpperCase ndc) = NDC.normalizeNDC ndc /\
  NDC.normalizeNDC (NDC.clean ndc) = NDC.normalizeNDC ndc /\
  NDC.clean (NDC.clean ndc) = NDC.clean ndc.
Proof.
  repeat split.
  - apply normalize_depends_on_clean, clean_trim.
  - apply normalize_depends_on_clean, clean_toUpperCase.
  - apply normalize_depends_on_clean, clean_idempotent.
  - apply clean_idempotent.
Qed.

(** ** The builder's setters *)

(** X13: the setters can be called in any order, and a later call of a
    setter replaces the value of an earlier one; the URL built therefore
    depends only on the last context, search and limit given. *)
Theorem setters_commute_last_wins (this : Builder.OpenFDABuilder)
    (c c' : Builder.ContextType) (q q' : string) (l l' : option Z) :
  (Builder.context c (Builder.search q this) = Builder.search q (Builder.context c this) /\
   Builder.context c (Builder.limit l this) = Builder.limit l (Builder.context c this) /\
   Builder.search q (Builder.limit l this) = Builder.limit l (Builder.search q this)) /\
  (Builder.context c' (Builder.context c this) = Builder.context c' this /\
   Builder.search q' (Builder.search q this) = Builder.search q' this /\
   Builder.limit l' (Builder.limit l this) = Builder.limit l' this).
Proof.
  unfold Builder.context, Builder.search, Builder.limit; cbn [Builder.params].
  split; repeat split; f_equal;
    first [by apply insert_insert_ne | by apply insert_insert_eq].
Qed.

(** ** The tool handlers *)

Section HandlerFacts.

Import Handlers.

Lemma labelQuery_params (query : string) (max : Z) :
  Builder.params (labelQuery query max) !! "context" = Some (Builder.Text "label") /\
  Builder.params (labelQuery query max) !! "search" = Some (Builder.Text query) /\
  Builder.params (labelQuery query max) !! "limit" = Some (Builder.Number max).
Proof.
  unfold labelQuery, Builder.limit, Builder.search, Builder.context, Builder.new.
  cbn [Builder.params default].
  rewrite lookup_insert_eq.
  rewrite (lookup_insert_ne _ "limit" "search"), lookup_insert_eq by done.
  rewrite (lookup_insert_ne _ "limit" "context"),
    (lookup_insert_ne _ "search" "context"), lookup_insert_eq by done.
  done.
Qed.

(** The request of a label query: it fails exactly on an empty query or
    a zero limit. *)
Lemma request_labelQuery (query : string) (max : Z) (env : gmap string string) :
  request (labelQuery query max) env =
  if String.eqb query "" || (max =? 0)
  then Throw Builder.missingParameters
  else Request ("https://api.fda.gov/drug/label.json?api_key="
                  +:+ default "undefined" (env !! "OPENFDA_API_KEY")
                  +:+ "&search=" +:+ query
                  +:+ "&limit=" +:+ Js.numberToString max).
Proof.
  unfold request. rewrite build_unfold.
  destruct (labelQuery_params query max) as (-> & -> & ->).
  cbn [Builder.truthy Builder.render andb].
  by destruct (String.eqb query ""), (max =? 0).
Qed.

Lemma request_eventQuery (query : string) (max : Z) (env : gmap string string) :
  request (Builder.limit (Some max)
             (Builder.search query (Builder.context Builder.event Builder.new))) env =
  if String.eqb query "" || (max =? 0)
  then Throw Builder.missingParameters
  else Request ("https://api.fda.gov/drug/event.json?api_key="
                  +:+ default "undefined" (env !! "OPENFDA_API_KEY")
                  +:+ "&search=" +:+ query
                  +:+ "&limit=" +:+ Js.numberToString max).
Proof.
  unfold request. rewrite build_unfold.
  unfold Builder.limit, Builder.search, Builder.context, Builder.new.
  cbn [Builder.params default].
  rewrite lookup_insert_eq.
  rewrite (lookup_insert_ne _ "limit" "search"), lookup_insert_eq by done.
  rewrite (lookup_insert_ne _ "limit" "context"),
    (lookup_insert_ne _ "search" "context"), lookup_insert_eq by done.
  cbn [Builder.truthy Builder.render Builder.contextName].
  change (negb (String.eqb "event" "")) with true. cbn [andb]. unfold id.
  by destruct (String.eqb query ""), (max =? 0).
Qed.

Lemma prefixed_not_empty (field value : string) :
  field <> "" -> String.eqb (field +:+ value) "" = false.
Proof. destruct field; [done | reflexivity]. Qed.

End HandlerFacts.

(** X14: the tools with a fixed limit always issue their request: for
    every drug name and environment, get-drug-by-name (and
    get-drug-safety-info, which builds the same URL) requests
    [.../label.json?api_key=<key>&search=openfda.brand_name:"<name>"&limit=1],
    the name being inserted as it is, without escaping. *)
Theorem drugByName_request (drugName : string) (env : gmap string string) :
  Handlers.drugByName drugName env =
  Handlers.Request
    ("https://api.fda.gov/drug/label.json?api_key="
       +:+ default "undefined" (env !! "OPENFDA_API_KEY")
       +:+ "&search=openfda.brand_name:" +:+ Handlers.quoted drugName
       +:+ "&limit=1").
Proof.
  unfold Handlers.drugByName. rewrite request_labelQuery.
  rewrite prefixed_not_empty by done. simpl.
  by rewrite !append_assoc.
Qed.

(** X15: the tools that take the limit from the caller
    (get-drug-by-generic-name, get-drugs-by-manufacturer and
    get-drug-adverse-events) fail with the builder's missing-parameter
    error exactly when the limit is 0, and otherwise issue their request
    with that limit (5, 20 and 10 by default); the adverse-event search
    carries [+AND+serious:1] or [+AND+serious:2] only when a seriousness
    other than "all" is asked for. *)
Theorem caller_limit_zero_throws (name : string) (limit : option Z)
    (env : gmap string string) :
  Handlers.drugByGenericName name limit env =
    (if default 5 limit =? 0
     then Handlers.Throw Builder.missingParameters
     else Handlers.Request
            ("https://api.fda.gov/drug/label.json?api_key="
               +:+ default "undefined" (env !! "OPENFDA_API_KEY")
               +:+ "&search=openfda.generic_name:" +:+ Handlers.quoted name
               +:+ "&limit=" +:+ Js.numberToString (default 5 limit))) /\
  Handlers.drugsByManufacturer name limit env =
    (if default 20 limit =? 0
     then Handlers.Throw Builder.missingParameters
     else Handlers.Request
            ("https://api.fda.gov/drug/label.json?api_key="
               +:+ default "undefined" (env !! "OPENFDA_API_KEY")
               +:+ "&search=openfda.manufacturer_name:" +:+ Handlers.quoted name
               +:+ "&limit=" +:+ Js.numberToString (default 20 limit))) /\
  (forall seriousness,
      Handlers.drugAdverseEvents name limit seriousness env =
      (if default 10 limit =? 0
       then Handlers.Throw Builder.missingParameters
       else Handlers.Request
              ("https://api.fda.gov/drug/event.json?api_key="
                 +:+ default "undefined" (env !! "OPENFDA_API_KEY")
                 +:+ "&search=patient.drug.medicinalproduct:" +:+ Handlers.quoted name
                 +:+ match seriousness with
                     | Some Handlers.serious => "+AND+serious:1"
                     | Some Handlers.nonSerious => "+AND+serious:2"
                     | Some Handlers.all | None => ""
                     end
                 +:+ "&limit=" +:+ Js.numberToString (default 10 limit)))).
Proof.
  unfold Handlers.drugByGenericName, Handlers.drugsByManufacturer.
  rewrite !request_labelQuery, !prefixed_not_empty by done. simpl.
  split; [| split].
  - destruct (default 5 limit =? 0); [reflexivity | by rewrite !append_assoc].
  - destruct (default 20 limit =? 0); [reflexivity | by rewrite !append_assoc].
  - intros seriousness. unfold Handlers.drugAdverseEvents.
    rewrite request_eventQuery.
    assert (Hquery : String.eqb
                       (Handlers.adverseEventsQuery name (default Handlers.all seriousness))
                       "" = false)
      by (by destruct seriousness as [[] |]).
    rewrite Hquery. simpl.
    destruct (default 10 limit =? 0); [reflexivity |].
    unfold Handlers.adverseEventsQuery.
    destruct seriousness as [[] |]; simpl; by rewrite ?append_assoc.
Qed.

(** X16: get-drug-by-ndc never fails at [build()].  An input that does
    not normalise to a valid code is answered at once with the format
    message, without any request; a valid one is requested with limit 10,
    searching the product code, and also the package code exactly when the
    input named a package. *)
Theorem drugByNdc_step (ndcCode : string) (env : gmap string string) :
  (NDC.isValid (NDC.normalizeNDC ndcCode) = false ->
   Handlers.drugByNdc ndcCode env =
   Handlers.Reply (Handlers.invalidNdcFormat ndcCode)) /\
  (NDC.isValid (NDC.normalizeNDC ndcCode) = true ->
   Handlers.drugByNdc ndcCode env =
   Handlers.Request
     ("https://api.fda.gov/drug/label.json?api_key="
        +:+ default "undefined" (env !! "OPENFDA_API_KEY")
        +:+ "&search=openfda.product_ndc:"
        +:+ Handlers.quoted (NDC.productNDC (NDC.normalizeNDC ndcCode))
        +:+ match NDC.packageNDC (NDC.normalizeNDC ndcCode) with
            | Some package =>
                "+OR+openfda.package_ndc:" +:+ Handlers.quoted package
            | None => ""
            end
        +:+ "&limit=10")).
Proof.
  unfold Handlers.drugByNdc. split; intros ->; [reflexivity |].
  cbn [negb]. rewrite request_labelQuery.
  unfold Handlers.ndcSearchQuery, Handlers.present.
  destruct (NDC.packageNDC (NDC.normalizeNDC ndcCode)) as [package |] eqn:Hpackage.
  - destruct (package_prefix _ _ Hpackage) as [_ Hne].
    apply String.eqb_neq in Hne. rewrite Hne. cbn [negb default].
    rewrite append_assoc, prefixed_not_empty by done. simpl.
    by rewrite !append_assoc.
  - rewrite prefixed_not_empty by done. simpl.
    by rewrite !append_assoc.
Qed.

Lemma drugByNdc_step_witness :
  Handlers.drugByNdc "12345-1234-01" {[ "OPENFDA_API_KEY" := "K" ]} =
  Handlers.Request
    ("https://api.fda.gov/drug/label.json?api_key=K&search=openfda.product_ndc:"
       +:+ Handlers.quoted "12345-1234" +:+ "+OR+openfda.package_ndc:"
       +:+ Handlers.quoted "12345-1234-01" +:+ "&limit=10").
Proof.
  destruct (drugByNdc_step "12345-1234-01" {[ "OPENFDA_API_KEY" := "K" ]})
    as [_ Hvalid].
  exact (Hvalid eq_refl).
Defined.

(** X17: the two NDC tools agree on product codes.  Whatever
    get-drug-by-product-ndc accepts (the trimmed input matches 5 digits,
    dash, 4 digits), get-drug-by-ndc accepts too, normalising it to the
    trimmed input without package code; both then search the same
    [openfda.product_ndc:"<trimmed input>"], with limits 1 and 10. *)
Theorem ndc_tools_agree (productNDC : string) (env : gmap string string) :
  NDC.testProductPattern (NDC.trim productNDC) = true ->
  NDC.normalizeNDC productNDC =
    {| NDC.productNDC := NDC.trim productNDC;
       NDC.packageNDC := None;
       NDC.isValid := true |} /\
  Handlers.drugByProductNdc productNDC env =
    Handlers.request
      (Handlers.labelQuery
         ("openfda.product_ndc:" +:+ Handlers.quoted (NDC.trim productNDC)) 1) env /\
  Handlers.drugByNdc productNDC env =
    Handlers.request
      (Handlers.labelQuery
         ("openfda.product_ndc:" +:+ Handlers.quoted (NDC.trim productNDC)) 10) env.
Proof.
  intros Hpattern.
  assert (Hnorm : NDC.normalizeNDC productNDC =
                  {| NDC.productNDC := NDC.trim productNDC;
                     NDC.packageNDC := None;
                     NDC.isValid := true |}).
  { rewrite <- (normalize_product _ Hpattern).
    apply normalize_depends_on_clean. symmetry. apply clean_trim. }
  split; [exact Hnorm |]. split.
  - unfold Handlers.drugByProductNdc. by rewrite Hpattern.
  - unfold Handlers.drugByNdc. by rewrite Hnorm.
Qed.

Lemma ndc_tools_agree_witness :
  Handlers.drugByProductNdc " 12345-1234 " ∅ =
  Handlers.request
    (Handlers.labelQuery ("openfda.product_ndc:" +:+ Handlers.quoted "12345-1234") 1) ∅.
Proof.
  destruct (ndc_tools_agree " 12345-1234 " ∅ eq_refl) as (_ & Hproduct & _).
  exact Hproduct.
Defined.

(** X18: the package codes that get-drug-by-ndc reports as matching all
    start with the normalised product code: a requested package code is
    matched by equality and itself extends the product code, and without
    one the match is by prefix.  With a requested package, every match is
    that package code. *)
Theorem matching_packages_extend_product (ndcCode : string)
    (package_ndc : option (list string)) (ndc : string) :
  In ndc (Handlers.matchingPackageNDCs
            (NDC.productNDC (NDC.normalizeNDC ndcCode))
            (NDC.packageNDC (NDC.normalizeNDC ndcCode)) package_ndc) ->
  In ndc (default [] package_ndc) /\
  Handlers.startsWith ndc (NDC.productNDC (NDC.normalizeNDC ndcCode)) = true /\
  (forall package,
      NDC.packageNDC (NDC.normalizeNDC ndcCode) = Some package -> ndc = package).
Proof.
  unfold Handlers.matchingPackageNDCs, Handlers.filterOptional, Handlers.present.
  destruct package_ndc as [codes |]; simpl; [| contradiction].
  intros [Hin Hkeep]%List.filter_In. split; [exact Hin |].
  destruct (NDC.packageNDC (NDC.normalizeNDC ndcCode)) as [package |] eqn:Hpackage.
  - destruct (package_prefix _ _ Hpackage) as [Hprefix Hne].
    apply String.eqb_neq in Hne. rewrite Hne in Hkeep. simpl in Hkeep.
    apply String.eqb_eq in Hkeep as ->.
    split; [exact Hprefix | by intros ? [= <-]].
  - simpl in Hkeep. split; [exact Hkeep | discriminate].
Qed.

Lemma matching_packages_extend_product_witness :
  Handlers.startsWith "12345-1234-01"
    (NDC.productNDC (NDC.normalizeNDC "12345123401")) = true.
Proof.
  apply (matching_packages_extend_product "12345123401"
           (Some ["12345-1234-01"; "12345-1234-02"; "99999-0000-01"]) "12345-1234-01").
  left. reflexivity.
Defined.

Lemma accepted_product_normalises (productNDC : string) :
  NDC.testProductPattern (NDC.trim productNDC) = true ->
  NDC.normalizeNDC productNDC =
  {| NDC.productNDC := NDC.trim productNDC; NDC.packageNDC := None; NDC.isValid := true |}.
Proof.
  intros Hpattern. rewrite <- (normalize_product _ Hpattern).
  apply normalize_depends_on_clean. symmetry. apply clean_trim.
Qed.

(** X19: for a product code that get-drug-by-product-ndc accepts, the
    package codes it lists ([allPackagesForProduct]) are exactly the ones
    get-drug-by-ndc reports as matching for the same input and the same
    record. *)
Theorem same_packages_reported (productNDC : string)
    (package_ndc : option (list string)) :
  NDC.testProductPattern (NDC.trim productNDC) = true ->
  Handlers.matchingPackageNDCs
    (NDC.productNDC (NDC.normalizeNDC productNDC))
    (NDC.packageNDC (NDC.normalizeNDC productNDC)) package_ndc =
  Handlers.allPackagesForProduct productNDC package_ndc.
Proof.
  intros Hpattern. by rewrite (accepted_product_normalises _ Hpattern).
Qed.

Lemma same_packages_reported_witness :
  Handlers.matchingPackageNDCs
    (NDC.productNDC (NDC.normalizeNDC "12345-1234"))
    (NDC.packageNDC (NDC.normalizeNDC "12345-1234"))
    (Some ["12345-1234-01"; "99999-0000-01"]) =
  Handlers.allPackagesForProduct "12345-1234" (Some ["12345-1234-01"; "99999-0000-01"]).
Proof.
  exact (same_packages_reported "12345-1234"
           (Some ["12345-1234-01"; "99999-0000-01"]) eq_refl).
Defined.

(** ** The shebang script *)

(** X20: the script is idempotent.  After any run that found the file,
    a second run finds the shebang in place, writes nothing and leaves
    the file system as it is. *)
Theorem shebang_idempotent (buildPath : string) (fs fs' : gmap string string)
    (writes : list (string * string)) :
  Shebang.run buildPath fs = Some (fs', writes) ->
  Shebang.run buildPath fs' = Some (fs', []).
Proof.
  unfold Shebang.run, Handlers.startsWith.
  destruct (fs !! buildPath) as [content |] eqn:Hread; [| discriminate].
  destruct (String.prefix Shebang.shebang content) eqn:Hstarts; simpl.
  - intros [= <- <-]. by rewrite Hread, Hstarts.
  - intros [= <- <-]. by rewrite lookup_insert_eq, prefix_append.
Qed.

Lemma shebang_idempotent_witness :
  Shebang.run "build/index.js"
    (<[ "build/index.js" := Shebang.shebang +:+ "main()" ]> ∅) =
  Some (<[ "build/index.js" := Shebang.shebang +:+ "main()" ]> ∅, []).
Proof.
  apply (shebang_idempotent "build/index.js" {[ "build/index.js" := "main()" ]}
           _ [("build/index.js", Shebang.shebang +:+ "main()")]).
  reflexivity.
Defined.

(** X21: what a run leaves behind.  The file starts with the shebang;
    its content is the old content, with the shebang put in front if it
    was not there; it is written at most once, and not at all when the
    shebang was there; no other file is changed. *)
Theorem shebang_postcondition (buildPath : string) (fs fs' : gmap string string)
    (writes : list (string * string)) :
  Shebang.run buildPath fs = Some (fs', writes) ->
  exists content,
    fs !! buildPath = Some content /\
    fs' !! buildPath =
      Some (if Handlers.startsWith content Shebang.shebang
            then content else Shebang.shebang +:+ content) /\
    (forall content', fs' !! buildPath = Some content' ->
                      Handlers.startsWith content' Shebang.shebang = true) /\
    writes = (if Handlers.startsWith content Shebang.shebang
              then [] else [(buildPath, Shebang.shebang +:+ content)]) /\
    (forall path, path <> buildPath -> fs' !! path = fs !! path).
Proof.
  unfold Shebang.run, Handlers.startsWith.
  destruct (fs !! buildPath) as [content |] eqn:Hread; [| discriminate].
  intros Hrun. exists content. split; [reflexivity |].
  destruct (String.prefix Shebang.shebang content) eqn:Hstarts; simpl in Hrun;
    injection Hrun as <- <-.
  - split; [exact Hread |]. split; [intros content' Hcontent; congruence |].
    split; [reflexivity | done].
  - rewrite lookup_insert_eq. split; [reflexivity |].
    split; [intros content' [= <-]; apply prefix_append |].
    split; [reflexivity |].
    intros path Hne. by rewrite lookup_insert_ne.
Qed.

Lemma shebang_postcondition_witness :
  exists content,
    ({[ "build/index.js" := "main()" ]} : gmap string string) !! "build/index.js"
      = Some content.
Proof.
  destruct (shebang_postcondition "build/index.js" {[ "build/index.js" := "main()" ]}
              (<[ "build/index.js" := Shebang.shebang +:+ "main()" ]>
                 {[ "build/index.js" := "main()" ]})
              [("build/index.js", Shebang.shebang +:+ "main()")])
    as (content & Hread & _); [reflexivity |].
  exists content. exact Hread.
Defined.

(** ** The request function without retries *)

(** X22: with [maxRetries = 0] the client makes one fetch and no sleep,
    like the function of [bin/index.js], and returns data exactly when
    that function returns a truthy value, the same value; when that
    function returns a falsy value ([null] after a failure, or a falsy
    body) the client returns an error record instead. *)
Theorem single_attempt_matches_legacy (url : string) (config : gmap string Z)
    (net : Fetch.Network) :
  Client.maxRetries (Client.settings config) = 0 ->
  exists r,
    Client.makeOpenFDARequest url config net = Some (r, [Client.CallFetch url 0]) /\
    Client.data r =
      (if Js.truthy (Legacy.makeOpenFDARequest (net 0%nat))
       then Some (Legacy.makeOpenFDARequest (net 0%nat)) else None) /\
    (Js.truthy (Legacy.makeOpenFDARequest (net 0%nat)) = false ->
     exists e, Client.error r = Some e).
Proof.
  intros Hmax.
  exists (Retry.resultOf (Client.settings config) (net 0%nat)).
  split; [apply (request_ends_at url config net 0); [lia | lia | left; lia] |].
  unfold Retry.resultOf, Legacy.makeOpenFDARequest.
  destruct (net 0%nat) as [error | response]; simpl; [eauto |].
  destruct (Fetch.ok response); simpl; [| eauto].
  destruct (Fetch.json response) as [pe | v]; simpl; [eauto |].
  destruct (Js.truthy v); simpl; [| eauto].
  split; [reflexivity | discriminate].
Qed.

Lemma single_attempt_matches_legacy_witness :
  exists r,
    Client.makeOpenFDARequest "u" {[ "maxRetries" := 0 ]}
      (Samples.always (Fetch.Resolved Scenarios.payload)) =
    Some (r, [Client.CallFetch "u" 0]) /\
    Client.data r = Some (Js.JObject []).
Proof.
  destruct (single_attempt_matches_legacy "u" {[ "maxRetries" := 0 ]}
              (Samples.always (Fetch.Resolved Scenarios.payload)))
    as (r & Hrun & Hdata & _); [reflexivity |].
  exists r. split; [exact Hrun | exact Hdata].
Defined.

(** ** The inputs the normaliser accepts *)

Section Acceptance.

Import NDC.

Lemma pattern_decompose (p : string) :
  testProductPattern p = true ->
  exists a b,
    p = a +:+ "-" +:+ b /\
    all isDigit a = true /\ String.length a = 5%nat /\
    all isDigit b = true /\ String.length b = 4%nat.
Proof.
  unfold testProductPattern. intros Hp.
  destruct (digits 5 p) as [[| c rest] |] eqn:H5; try discriminate.
  apply andb_true_iff in Hp as [Hc Hp]. apply Ascii.eqb_eq in Hc as ->.
  destruct (digits 4 rest) as [[| ? ?] |] eqn:H4; try discriminate.
  destruct (digits_spec _ _ _ H5) as (a & -> & Ha & La).
  destruct (digits_spec _ _ _ H4) as (b & -> & Hb & Lb).
  exists a, b. by rewrite append_nil_r.
Qed.

(** The segments of a split hold no separator. *)
Lemma split_segments (sep : ascii) : forall s,
  Forall (fun p => occurrences sep p = 0%nat) (split sep s).
Proof.
  induction s as [| x s IH]; simpl; [by repeat constructor |].
  destruct (Ascii.eqb x sep) eqn:Hx; [by constructor |].
  destruct (split sep s) as [| first others]; [by repeat constructor; simpl; rewrite Hx |].
  inversion IH as [| ? ? Hfirst Hothers]; subst.
  constructor; [simpl; by rewrite Hx, Hfirst | exact Hothers].
Qed.

Lemma string_length_app (a b : string) :
  String.length (a +:+ b) = (String.length a + String.length b)%nat.
Proof.
  induction a as [| x a IH]; [reflexivity |].
  change (S (String.length (a +:+ b)) = S (String.length a + String.length b)).
  by rewrite IH.
Qed.

(** Normalisation of a cleaned input of each accepted shape. *)
Lemma accepted_shapes (ndc a b : string) :
  all isDigit a = true -> String.length a = 5%nat ->
  all isDigit b = true -> String.length b = 4%nat ->
  (clean ndc = a +:+ "-" +:+ b ->
   normalizeNDC ndc = validated (a +:+ "-" +:+ b) None) /\
  (forall rest, occurrences "-" rest = 0%nat ->
     clean ndc = a +:+ "-" +:+ b +:+ "-" +:+ rest ->
     normalizeNDC ndc =
     validated (a +:+ "-" +:+ b) (Some (a +:+ "-" +:+ b +:+ "-" +:+ rest))) /\
  (forall rest, occurrences "-" rest = 0%nat -> String.length rest = 2%nat ->
     clean ndc = a +:+ b +:+ rest ->
     normalizeNDC ndc =
     validated (a +:+ "-" +:+ b) (Some (a +:+ "-" +:+ b +:+ "-" +:+ rest))) /\
  (clean ndc = a +:+ b ->
   normalizeNDC ndc = validated (a +:+ "-" +:+ b) None).
Proof.
  intros Ha La Hb Lb.
  destruct (all_digits_plain a Ha) as [_ Hoa], (all_digits_plain b Hb) as [_ Hob].
  destruct (substring_parts a b "" La Lb) as (S05' & S59' & _ & Hlen9).
  specialize (Hlen9 eq_refl). rewrite (append_nil_r b) in *.
  unfold normalizeNDC. repeat split.
  - intros ->. rewrite includes_dash, !occurrences_app, Hoa, Hob.
    change (occurrences "-" "-") with 1%nat. cbn [Nat.add Nat.ltb Nat.leb].
    change (split "-" (a +:+ "-" +:+ b)) with (split "-" (a +:+ String "-" b)).
    by rewrite (split_at_separator "-" a _ Hoa), (split_no_separator "-" b Hob).
  - intros rest Hrest ->. rewrite includes_dash, !occurrences_app, Hoa, Hob, Hrest.
    change (occurrences "-" "-") with 1%nat. cbn [Nat.add Nat.ltb Nat.leb].
    change (split "-" (a +:+ "-" +:+ b +:+ "-" +:+ rest))
      with (split "-" (a +:+ String "-" (b +:+ String "-" rest))).
    by rewrite (split_at_separator "-" a _ Hoa), (split_at_separator "-" b _ Hob),
      (split_no_separator "-" rest Hrest).
  - intros rest Hrest Lrest ->.
    destruct (substring_parts a b rest La Lb) as (S05 & S59 & Srest & _).
    destruct (Srest Lrest) as [S911 Hlen].
    rewrite includes_dash, !occurrences_app, Hoa, Hob, Hrest.
    cbn [Nat.add Nat.ltb Nat.leb]. by rewrite Hlen, S05, S59, S911.
  - intros ->. rewrite includes_dash, !occurrences_app, Hoa, Hob.
    cbn [Nat.add Nat.ltb Nat.leb]. by rewrite Hlen9, S05', S59'.
Qed.

End Acceptance.

(** X23: the inputs flagged valid are exactly those whose cleaned form
    is, for 5 digits [a] and 4 digits [b]: [a-b]; [a-b-rest] with any
    dash-free [rest] (empty or not digits included); [ab] followed by any
    two characters other than a dash; or [ab].  No other input is
    accepted. *)
Theorem valid_inputs (ndc : string) :
  NDC.isValid (NDC.normalizeNDC ndc) = true <->
  exists a b,
    NDC.all NDC.isDigit a = true /\ String.length a = 5%nat /\
    NDC.all NDC.isDigit b = true /\ String.length b = 4%nat /\
    (NDC.clean ndc = a +:+ "-" +:+ b \/
     (exists rest,
         NDC.occurrences "-" rest = 0%nat /\
         NDC.clean ndc = a +:+ "-" +:+ b +:+ "-" +:+ rest) \/
     (exists rest,
         NDC.occurrences "-" rest = 0%nat /\ String.length rest = 2%nat /\
         NDC.clean ndc = a +:+ b +:+ rest) \/
     NDC.clean ndc = a +:+ b).
Proof.
  split.
  - intros Hvalid. unfold NDC.normalizeNDC in Hvalid.
    remember (NDC.clean ndc) as s eqn:Hs. clear Hs.
    destruct (Js.includes s "-") eqn:Hdash.
    + pose proof (split_segments "-" s) as Hseg.
      destruct (NDC.split "-" s) as [| p0 [| p1 [| p2 [| ? ?]]]] eqn:Hsplit;
        simpl in Hvalid; try discriminate.
      * destruct (pattern_decompose _ Hvalid) as (a & b & -> & Ha & La & Hb & Lb).
        exists a, b. repeat split; auto.
      * destruct (pattern_decompose _ Hvalid) as (a & b & Heq & Ha & La & Hb & Lb).
        destruct (split_first _ _ _ _ _ Hsplit) as (s1 & -> & Hs1).
        destruct (split_first _ _ _ _ _ Hs1) as (s2 & -> & Hs2).
        apply split_only in Hs2 as ->.
        exists a, b. repeat split; auto. right. left. exists p2. split.
        -- inversion Hseg as [| ? ? _ Hseg1]; subst.
           inversion Hseg1 as [| ? ? _ Hseg2]; subst.
           by inversion Hseg2.
        -- change (p0 +:+ String "-" (p1 +:+ String "-" p2))
             with (p0 +:+ "-" +:+ p1 +:+ "-" +:+ p2).
           rewrite <- (append_assoc a), <- (append_assoc (a +:+ "-")), (append_assoc a).
           rewrite <- Heq. by rewrite !append_assoc.
    + rewrite includes_dash in Hdash. apply Nat.ltb_ge in Hdash.
      destruct (Nat.eqb_spec (String.length s) 11) as [H11 | _].
      * do 12 (destruct s as [| ? s]; try discriminate).
        cbv -[NDC.isDigit] in Hvalid.
        repeat match type of Hvalid with
               | context [NDC.isDigit ?c] =>
                   destruct (NDC.isDigit c) eqn:?; try discriminate
               end.
        exists (String a (String a0 (String a1 (String a2 (String a3 ""))))),
          (String a4 (String a5 (String a6 (String a7 "")))).
        cbn [NDC.all]. repeat split; auto.
        { repeat match goal with H : NDC.isDigit _ = true |- _ => rewrite H; clear H end.
          reflexivity. }
        { repeat match goal with H : NDC.isDigit _ = true |- _ => rewrite H; clear H end.
          reflexivity. }
        right. right. left. exists (String a8 (String a9 "")).
        repeat split; auto.
        change (NDC.occurrences "-"
                  ((String a (String a0 (String a1 (String a2 (String a3 "")))))
                     +:+ (String a4 (String a5 (String a6 (String a7 ""))))
                     +:+ String a8 (String a9 "")) <= 0)%nat in Hdash.
        rewrite !occurrences_app in Hdash. lia.
      * destruct (Nat.eqb_spec (String.length s) 9) as [H9 | _];
          [| simpl in Hvalid; discriminate].
        do 10 (destruct s as [| ? s]; try discriminate).
        cbv -[NDC.isDigit] in Hvalid.
        repeat match type of Hvalid with
               | context [NDC.isDigit ?c] =>
                   destruct (NDC.isDigit c) eqn:?; try discriminate
               end.
        exists (String a (String a0 (String a1 (String a2 (String a3 ""))))),
          (String a4 (String a5 (String a6 (String a7 "")))).
        cbn [NDC.all]. repeat split; auto.
        { repeat match goal with H : NDC.isDigit _ = true |- _ => rewrite H; clear H end.
          reflexivity. }
        { repeat match goal with H : NDC.isDigit _ = true |- _ => rewrite H; clear H end.
          reflexivity. }
  - intros (a & b & Ha & La & Hb & Lb & Hshape).
    destruct (accepted_shapes ndc a b Ha La Hb Lb) as (H2 & H3 & H11 & H9).
    pose proof (product_pattern a b Ha La Hb Lb) as Hpattern.
    change (a +:+ String "-" b) with (a +:+ "-" +:+ b) in Hpattern.
    destruct Hshape as [Hc | [(rest & Hrest & Hc) | [(rest & Hrest & Lrest & Hc) | Hc]]].
    + rewrite (H2 Hc). exact Hpattern.
    + rewrite (H3 rest Hrest Hc). exact Hpattern.
    + rewrite (H11 rest Hrest Lrest Hc). exact Hpattern.
    + rewrite (H9 Hc). exact Hpattern.
Qed.

(** A package suffix is not validated: an empty one is accepted. *)
Example empty_package_suffix :
  NDC.normalizeNDC "12345-1234-" =
  {| NDC.productNDC := "12345-1234";
     NDC.packageNDC := Some "12345-1234-";
     NDC.isValid := true |}.
Proof. reflexivity. Qed.

(** The undashed 9-digit form is valid for get-drug-by-ndc but refused by
    get-drug-by-product-ndc. *)
Example nine_digits_two_tools :
  NDC.isValid (NDC.normalizeNDC "123451234") = true /\
  NDC.testProductPattern (NDC.trim "123451234") = false.
Proof. split; reflexivity. Qed.
